(** * A shallow embedding of the RSI trading bot

    The development follows [src/strategy.py] (class [TradingStrategy]) and
    [src/data/models.py] (class [Database]).

    - Python [float] is IEEE binary64: it is modelled by Rocq's primitive
      floats, so every comparison and product below computes the very value
      the interpreter computes, NaN included.
    - Python [int] is [Z].
    - An exception is an explicit [Raise] outcome; [try ... except Exception]
      is a match on the outcome.
    - The exchange (the [okx] package) is an oracle: a record of functions
      giving the answer of each remote call. *)

From Stdlib Require Import ZArith String Bool Lia.
From Stdlib Require Import Floats Uint63 DecimalString List.
From Stdlib Require Sorted Permutation.
Import ListNotations.

Local Open Scope string_scope.
Local Open Scope list_scope.
Local Open Scope Z_scope.

(** ** Outcomes of Python calls *)

(** The exception classes the modelled code can meet. All of them derive
    from [Exception], so [except Exception] catches every one. *)
Inductive exn : Type :=
| RemoteError      (* raised by the okx client: transport or exchange error *)
| KeyError         (* d['data'] on a dict without that key *)
| IndexError       (* xs[i] out of range *)
| ValueError       (* float(s) on a malformed literal *)
| TALibError       (* talib: TA_BAD_PARAM turned into an exception *)
| IntegrityError.  (* sqlite3: a constraint failed *)

Inductive result (A : Type) : Type :=
| Ok (a : A)
| Raise (e : exn).

Arguments Ok {A} a.
Arguments Raise {A} e.

Definition bind {A B : Type} (r : result A) (k : A -> result B) : result B :=
  match r with
  | Ok a => k a
  | Raise e => Raise e
  end.

Notation "x <- r ;; k" := (bind r (fun x => k))
  (at level 61, r at next level, right associativity).

(** A list comprehension whose body may raise: the first exception aborts
    the whole comprehension. *)
Fixpoint comprehension {A B : Type} (f : A -> result B) (xs : list A)
  : result (list B) :=
  match xs with
  | [] => Ok []
  | x :: rest =>
      y <- f x ;;
      ys <- comprehension f rest ;;
      Ok (y :: ys)
  end.

(** [xs[i]] for a non-negative literal index. *)
Definition subscript {A : Type} (xs : list A) (i : nat) : result A :=
  match nth_error xs i with
  | Some x => Ok x
  | None => Raise IndexError
  end.

(** [xs[-1]]. *)
Definition subscript_last {A : Type} (xs : list A) : result A :=
  match rev xs with
  | x :: _ => Ok x
  | [] => Raise IndexError
  end.

(** [d[key]] where the dict either has the key or not. *)
Definition lookup_key {A : Type} (entry : option A) : result A :=
  match entry with
  | Some v => Ok v
  | None => Raise KeyError
  end.

(** ** Numbers *)

(** The float a Python [int] becomes in mixed arithmetic. The conversion is
    exact for [|z| <= 2^53], which covers every size and percentage the
    strategy is configured with. *)
Definition float_of_Z (z : Z) : float :=
  if z <? 0 then PrimFloat.opp (PrimFloat.of_uint63 (Uint63.of_Z (- z)))
  else PrimFloat.of_uint63 (Uint63.of_Z z).

(** [x > y] and [x >= y]: IEEE comparisons, false as soon as one side is NaN. *)
Definition gtb (x y : float) : bool := PrimFloat.ltb y x.
Definition geb (x y : float) : bool := PrimFloat.leb y x.

(** [str(n)] for an [int]. *)
Definition str (n : Z) : string := NilZero.string_of_int (Z.to_int n).

(** ** The exchange *)

(** One candle of the candlestick endpoint, as decoded from JSON: a list of
    strings [ts, open, high, low, close, volume, ...]. *)
Definition candle : Type := list string.

(** The decoded answer of [get_candlesticks]: a dict that may hold 'data'. *)
Record candles_response : Type := {
  candles_data : option (list candle)
}.

(** One entry of the ticker answer: a dict that may hold 'last'. *)
Record ticker_entry : Type := {
  ticker_last : option string
}.

Record ticker_response : Type := {
  ticker_data : option (list ticker_entry)
}.

(** The keyword arguments of [place_order]. *)
Record order_request : Type := {
  instId : string;
  tdMode : string;
  side : string;
  ordType : string;
  sz : string
}.

(** What [place_order] returns: opaque, used for logging only. *)
Definition order : Type := string.

Record exchange : Type := {
  get_candlesticks : string -> string -> string -> result candles_response;
  get_ticker : string -> result ticker_response;
  place_order : order_request -> result order
}.

(** ** The indicator library *)

Local Open Scope float_scope.

(** [talib] is the third-party TA-Lib binding: it is not under src/, so its
    one function the strategy calls is modelled here. *)
Module talib.

(** Modelled from the spec: TA-Lib's tolerance around zero (talib is not
    under src/); a sum of averages this small counts as no movement. *)
Definition TA_IS_ZERO (v : float) : bool :=
  let eps := 1 / 100000000 in
  PrimFloat.ltb (- eps) v && PrimFloat.ltb v eps.

(** Modelled from the spec: the oscillator value for an average gain and an
    average loss (talib is not under src/), the share of the gains rescaled
    to 0..100. *)
Definition rsi_value (gain loss : float) : float :=
  let total := gain + loss in
  if TA_IS_ZERO total then 0 else 100 * (gain / total).

(** Modelled from the spec: the sums of the gains and of the losses over the
    price changes of [xs], starting from the price [prev], and the last price
    seen (talib is not under src/). *)
Fixpoint rsi_warm_up (prev gain loss : float) (xs : list float)
  : float * float * float :=
  match xs with
  | [] => (prev, gain, loss)
  | x :: rest =>
      let change := x - prev in
      if PrimFloat.ltb change 0
      then rsi_warm_up x gain (loss - change) rest
      else rsi_warm_up x (gain + change) loss rest
  end.

(** Modelled from the spec: Wilder's smoothing of the two averages, one
    output per further price (talib is not under src/). *)
Fixpoint rsi_smooth (period : Z) (prev gain loss : float) (xs : list float)
  : list float :=
  match xs with
  | [] => []
  | x :: rest =>
      let change := x - prev in
      let loss1 := loss * float_of_Z (period - 1) in
      let gain1 := gain * float_of_Z (period - 1) in
      let loss2 := if PrimFloat.ltb change 0 then loss1 - change else loss1 in
      let gain2 := if PrimFloat.ltb change 0 then gain1 else gain1 + change in
      let loss3 := loss2 / float_of_Z period in
      let gain3 := gain2 / float_of_Z period in
      rsi_value gain3 loss3 :: rsi_smooth period x gain3 loss3 rest
  end.

(** Modelled from the spec: the values after the warm-up, for a first price
    and the prices after it (talib is not under src/). *)
Definition rsi_body (timeperiod : Z) (first : float) (rest : list float)
  : list float :=
  let n := Z.to_nat timeperiod in
  let '(prev, gain, loss) := rsi_warm_up first 0 0 (firstn n rest) in
  let gain0 := gain / float_of_Z timeperiod in
  let loss0 := loss / float_of_Z timeperiod in
  rsi_value gain0 loss0 :: rsi_smooth timeperiod prev gain0 loss0 (skipn n rest).

(** Modelled from the spec: [talib.RSI] is the third-party TA-Lib, which is
    not under src/. The spec asks for one value per input element, undefined
    (NaN) during a warm-up of [timeperiod] elements, then the average of the
    gains against the losses over the trailing price changes rescaled to
    0..100, and for an all-undefined sequence when fewer than
    [timeperiod + 1] prices are given. The arithmetic is Wilder's smoothing
    as TA-Lib computes it; the library refuses a [timeperiod] outside
    2..100000, and an empty input gives an empty output. *)
Definition RSI (real : list float) (timeperiod : Z) : result (list float) :=
  if ((timeperiod <? 2) || (100000 <? timeperiod))%Z then Raise TALibError
  else
    match real with
    | [] => Ok []
    | first :: rest =>
        let n := Z.to_nat timeperiod in
        if (length rest <? n)%nat then Ok (repeat nan (length real))
        else Ok (repeat nan n ++ rsi_body timeperiod first rest)
    end.

End talib.

(** ** The strategy: [class TradingStrategy] *)

(** The trading and RSI parameters [__init__] stores in [self]. *)
Record config : Type := {
  buy1_size : Z;
  buy2_size : Z;
  stop_loss_percent : Z;
  take_profit_percent : Z;
  buy2_offset : Z;
  immediate_exit_threshold : Z;
  rsi_length : Z;
  rsi_overbought : Z;
  rsi_oversold : Z
}.

(** The position [self.position_size], [self.position_avg_price]. *)
Record position : Type := {
  position_size : Z;
  position_avg_price : float
}.

(** The values [__init__] assigns. *)
Definition default_config : config := {|
  buy1_size := 40;
  buy2_size := 7;
  stop_loss_percent := 3;
  take_profit_percent := 5;
  buy2_offset := 4;
  immediate_exit_threshold := 2;
  rsi_length := 14;
  rsi_overbought := 67;
  rsi_oversold := 33
|}.

Definition initial_position : position := {|
  position_size := 0;
  position_avg_price := 0
|}.

Inductive entry_signal : Type := buy1 | buy2.
Inductive exit_signal : Type := immediate_exit | tp_sl.

(** [calculate_rsi]: [np.array(prices)] keeps the elements and their order. *)
Definition calculate_rsi (cfg : config) (prices : list float)
  : result (list float) :=
  talib.RSI prices (rsi_length cfg).

(** The price above which the second tranche is bought:
    [position_avg_price * (1 + buy2_offset / 100)]. *)
Definition buy2_trigger (cfg : config) (pos : position) : float :=
  position_avg_price pos * (1 + float_of_Z (buy2_offset cfg) / float_of_Z 100).

(** [check_entry_conditions]: [Ok None] is Python's [None]. *)
Definition check_entry_conditions (cfg : config) (pos : position)
    (prices : list float) (current_price : float)
  : result (option entry_signal) :=
  rsi_values <- calculate_rsi cfg prices ;;
  current_rsi <- subscript_last rsi_values ;;
  if (position_size pos =? 0)%Z
     && PrimFloat.ltb current_rsi (float_of_Z (rsi_oversold cfg))
  then Ok (Some buy1)
  else if (position_size pos =? buy1_size cfg)%Z
          && gtb current_price (buy2_trigger cfg pos)
  then Ok (Some buy2)
  else Ok None.

(** [position_avg_price * (1 - immediate_exit_threshold / 100)]. *)
Definition immediate_exit_price (cfg : config) (pos : position) : float :=
  position_avg_price pos
  * (1 - float_of_Z (immediate_exit_threshold cfg) / float_of_Z 100).

Definition stop_loss_price (cfg : config) (pos : position) : float :=
  position_avg_price pos
  * (1 - float_of_Z (stop_loss_percent cfg) / float_of_Z 100).

Definition take_profit_price (cfg : config) (pos : position) : float :=
  position_avg_price pos
  * (1 + float_of_Z (take_profit_percent cfg) / float_of_Z 100).

(** [check_exit_conditions]: it takes [prices] and never reads it. *)
Definition check_exit_conditions (cfg : config) (pos : position)
    (prices : list float) (current_price : float) : option exit_signal :=
  if (position_size pos =? 0)%Z then None
  else if PrimFloat.ltb current_price (immediate_exit_price cfg pos)
  then Some immediate_exit
  else if PrimFloat.leb current_price (stop_loss_price cfg pos)
          || geb current_price (take_profit_price cfg pos)
  then Some tp_sl
  else None.

(** The fields of a candle as [bulk_insert_historical_data] names them when
    it builds a row: [candle[4]  # close], [candle[5]  # volume]. *)
Definition candle_timestamp (c : candle) : result string := subscript c 0.
Definition candle_close (c : candle) : result string := subscript c 4.
Definition candle_volume (c : candle) : result string := subscript c 5.

Section PriceFeed.

(** Python's builtin [float(s)] on a string: the float it denotes, or
    [None] where the builtin raises [ValueError]. *)
Variable py_float : string -> option float.

Definition float_of_str (s : string) : result float :=
  match py_float s with
  | Some x => Ok x
  | None => Raise ValueError
  end.

(** The body of the [try] in [get_historical_prices]. *)
Definition fetch_historical_prices (ex : exchange) (symbol : string)
    (limit : Z) : result (list float) :=
  candles <- get_candlesticks ex symbol "5m" (str limit) ;;
  data <- lookup_key (candles_data candles) ;;
  comprehension (fun c : candle => s <- subscript c 5 ;; float_of_str s) data.

(** [get_historical_prices]: [except Exception] logs and returns []. *)
Definition get_historical_prices (ex : exchange) (symbol : string)
    (limit : Z) : list float :=
  match fetch_historical_prices ex symbol limit with
  | Ok prices => prices
  | Raise _ => []
  end.

(** [get_current_price]: no [try] here, an exception goes to the caller. *)
Definition get_current_price (ex : exchange) (symbol : string)
  : result float :=
  ticker <- get_ticker ex symbol ;;
  data <- lookup_key (ticker_data ticker) ;;
  first <- subscript data 0 ;;
  last <- lookup_key (ticker_last first) ;;
  float_of_str last.

(** [enter_position]: what it returns ([None] on any exception) and the
    position afterwards. The two assignments come after both remote calls,
    so an exception leaves the position as it was. *)
Definition enter_position (ex : exchange) (pos : position)
    (symbol side : string) (size : Z) : option order * position :=
  let attempt :=
    current_price <- get_current_price ex symbol ;;
    placed <- place_order ex {| instId := symbol; tdMode := "cross";
                                side := side; ordType := "market";
                                sz := str size |} ;;
    Ok (placed, {| position_size := position_size pos + size;
                   position_avg_price := current_price |}) in
  match attempt with
  | Ok (placed, pos') => (Some placed, pos')
  | Raise _ => (None, pos)
  end.

(** The order [exit_position] sends: the whole position, sold when long. *)
Definition exit_request (pos : position) (symbol : string) : order_request :=
  {| instId := symbol; tdMode := "cross";
     side := if (0 <? position_size pos)%Z then "sell" else "buy";
     ordType := "market";
     sz := str (position_size pos) |}.

(** [exit_position]. *)
Definition exit_position (ex : exchange) (pos : position) (symbol : string)
  : option order * position :=
  match place_order ex (exit_request pos symbol) with
  | Ok placed => (Some placed, {| position_size := 0;
                                  position_avg_price := 0 |})
  | Raise _ => (None, pos)
  end.

(** One call of the strategy on its position, each with the exchange as it
    answers during that call. *)
Inductive operation : Type :=
| Enter (ex : exchange) (symbol side : string) (size : Z)
| Exit (ex : exchange) (symbol : string).

Definition perform (pos : position) (op : operation) : position :=
  match op with
  | Enter ex symbol side size => snd (enter_position ex pos symbol side size)
  | Exit ex symbol => snd (exit_position ex pos symbol)
  end.

(** The position after a sequence of calls. *)
Definition run (ops : list operation) (pos : position) : position :=
  fold_left perform ops pos.

(** The precondition of the position invariant on one call: an entry has a
    strictly positive size and every price it can fetch is strictly
    positive. *)
Definition positive_entry (op : operation) : Prop :=
  match op with
  | Enter ex symbol side size =>
      (0 < size)%Z
      /\ forall price, get_current_price ex symbol = Ok price ->
                       PrimFloat.ltb 0 price = true
  | Exit _ _ => True
  end.

End PriceFeed.

(** Flat if and only if no cost basis: [size == 0 <=> avg_price == 0]. *)
Definition flat_iff_no_cost_basis (pos : position) : Prop :=
  position_size pos = 0%Z <-> PrimFloat.eqb (position_avg_price pos) 0 = true.

(** What the calls keep true: the size is never negative, and the position is
    flat exactly when it has no cost basis. The first part is what makes the
    second one inductive: an entry can then only move the size away from 0. *)
Definition long_or_flat (pos : position) : Prop :=
  (0 <= position_size pos)%Z /\ flat_iff_no_cost_basis pos.

(** [float(s)] on an unsigned decimal integer literal below 2^53, where the
    conversion is exact; any other string is refused. The examples use it as
    the builtin. *)
Definition float_of_digits (s : string) : option float :=
  match NilEmpty.uint_of_string s with
  | Some d =>
      let z := Z.of_N (N.of_uint d) in
      if ((0 <? String.length s)%nat && (z <? 2 ^ 53))%Z
      then Some (float_of_Z z) else None
  | None => None
  end.

(** The value [check_entry_conditions] reads as [current_rsi]:
    [calculate_rsi(prices)[-1]]. *)
Definition latest_rsi (cfg : config) (prices : list float) : result float :=
  rsi_values <- calculate_rsi cfg prices ;;
  subscript_last rsi_values.

(** ** The store: [class Database] *)

Module Database.

(** A row of [strategy_signals (symbol TEXT NOT NULL, timestamp INTEGER
    NOT NULL, signal TEXT NOT NULL, PRIMARY KEY (symbol, timestamp))]. *)
Record signal_row : Type := {
  row_symbol : string;
  row_timestamp : Z;
  row_signal : string
}.

Definition signals_table : Type := list signal_row.

Definition same_key (symbol : string) (timestamp : Z) (r : signal_row)
  : bool :=
  String.eqb (row_symbol r) symbol && (row_timestamp r =? timestamp)%Z.

(** [INSERT OR REPLACE INTO strategy_signals] with the value bound to each
    column, [None] for NULL; a column the statement does not list is NULL,
    the table declaring no default. A NULL in a NOT NULL column without a
    default aborts the statement ([sqlite3.IntegrityError]) and changes
    nothing; otherwise the row that has the same primary key is deleted and
    the new row is stored. *)
Definition insert_or_replace (tbl : signals_table)
    (symbol : option string) (timestamp : option Z) (signal : option string)
  : result signals_table :=
  match symbol, timestamp, signal with
  | Some s, Some t, Some g =>
      Ok (filter (fun r => negb (same_key s t r)) tbl
            ++ [{| row_symbol := s; row_timestamp := t; row_signal := g |}])
  | _, _, _ => Raise IntegrityError
  end.

(** [insert_signal(self, timestamp, signal)]: the statement lists the
    columns [(timestamp, signal)] only. [Raise] leaves the table as it
    was: [commit] is not reached. *)
Definition insert_signal (tbl : signals_table) (timestamp : Z)
    (signal : string) : result signals_table :=
  insert_or_replace tbl None (Some timestamp) (Some signal).

(** The rows stored under a key. *)
Definition rows_at (tbl : signals_table) (symbol : string) (timestamp : Z)
  : list signal_row :=
  filter (same_key symbol timestamp) tbl.

End Database.

(** The periods [talib.RSI] accepts. *)
Definition accepted_period (cfg : config) : Prop :=
  (2 <= rsi_length cfg <= 100000)%Z.

(** ** Inputs of the examples *)

(** Fifteen closes, each one below the one before: the RSI of the last is 0. *)
Definition falling_prices : list float :=
  [100; 99; 98; 97; 96; 95; 94; 93; 92; 91; 90; 89; 88; 87; 86].

(** The position after a first tranche bought at 100. *)
Definition first_tranche : position :=
  {| position_size := 40; position_avg_price := 100 |}.

(** Two candles as the exchange delivers them, the newer one first. *)
Definition newer_candle : candle := ["2000"; "10"; "12"; "9"; "11"; "500"].
Definition older_candle : candle := ["1000"; "8"; "10"; "7"; "9"; "400"].

(** An exchange that answers every call: the two candles, a last price of
    105, and every order accepted. *)
Definition answering_exchange : exchange := {|
  get_candlesticks := fun _ _ _ =>
    Ok {| candles_data := Some [newer_candle; older_candle] |};
  get_ticker := fun _ =>
    Ok {| ticker_data := Some [{| ticker_last := Some "105" |}] |};
  place_order := fun request => Ok ("order " ++ sz request)%string
|}.

(** An exchange out of reach: every call raises. *)
Definition unreachable_exchange : exchange := {|
  get_candlesticks := fun _ _ _ => Raise RemoteError;
  get_ticker := fun _ => Raise RemoteError;
  place_order := fun _ => Raise RemoteError
|}.

(** ** The strategy loop: [run_strategy] *)

(** The exchange as it answers during one iteration of the loop: to the two
    reads at the top of the iteration, during the call of [enter_position],
    and during the call of [exit_position]. *)
Record cycle_answers : Type := {
  feed : exchange;
  on_entry : exchange;
  on_exit : exchange
}.

Section StrategyLoop.

Variable py_float : string -> option float.

(** The body of the [try] in one iteration of [run_strategy], with the
    position it leaves. [get_historical_prices] is called with its default
    [limit=100]. The exit check reads the position the entry has just
    written and the price fetched before the entry. *)
Definition attempt_cycle (cfg : config) (answers : cycle_answers)
    (pos : position) (symbol : string) : result position :=
  let historical_prices :=
    get_historical_prices py_float (feed answers) symbol 100 in
  current_price <- get_current_price py_float (feed answers) symbol ;;
  entry_signal <-
    check_entry_conditions cfg pos historical_prices current_price ;;
  let entered :=
    match entry_signal with
    | Some buy1 =>
        snd (enter_position py_float (on_entry answers) pos symbol "buy"
               (buy1_size cfg))
    | Some buy2 =>
        snd (enter_position py_float (on_entry answers) pos symbol "buy"
               (buy2_size cfg))
    | None => pos
    end in
  match check_exit_conditions cfg entered historical_prices current_price with
  | Some _ => Ok (snd (exit_position (on_exit answers) entered symbol))
  | None => Ok entered
  end.

(** One iteration of [run_strategy]: [except Exception] logs, and the
    position is the one the iteration started with, every statement that can
    raise coming before the first assignment. *)
Definition strategy_cycle (cfg : config) (symbol : string) (pos : position)
    (answers : cycle_answers) : position :=
  match attempt_cycle cfg answers pos symbol with
  | Ok pos' => pos'
  | Raise _ => pos
  end.

(** The first iterations of [run_strategy], one per element of [cycles]. *)
Definition run_strategy (cfg : config) (symbol : string)
    (cycles : list cycle_answers) (pos : position) : position :=
  fold_left (strategy_cycle cfg symbol) cycles pos.

(** Every price an entry of the iteration can fetch is strictly positive. *)
Definition positive_fills (symbol : string) (answers : cycle_answers)
  : Prop :=
  forall price,
    get_current_price py_float (on_entry answers) symbol = Ok price ->
    PrimFloat.ltb 0 price = true.

End StrategyLoop.


(** ** The store of candles: [historical_data] and its loader *)

(** A stable sort by insertion. Python's [sorted] is stable, and a stable
    sort has only one result, so [sorted(xs, key=k)] is this list for the
    order of the keys. [ORDER BY] is the same sort: under the primary key no
    two rows of a symbol compare as equal, so its result is determined
    too. *)
Fixpoint insert_by {A : Type} (leb : A -> A -> bool) (x : A) (l : list A)
  : list A :=
  match l with
  | [] => [x]
  | y :: rest => if leb x y then x :: y :: rest else y :: insert_by leb x rest
  end.

Definition sort_by {A : Type} (leb : A -> A -> bool) (l : list A) : list A :=
  fold_right (insert_by leb) [] l.

(** SQLite as the store uses it: the value a text becomes when it is bound
    to a column of INTEGER or of REAL affinity, and the comparison of stored
    values, which the primary key index and [ORDER BY] share. *)
Record sqlite_engine : Type := {
  sql_value : Type;
  integer_affinity : string -> sql_value;
  real_affinity : string -> sql_value;
  sql_compare : sql_value -> sql_value -> comparison
}.

(** What SQLite's comparison is: a total preorder. *)
Record total_preorder (engine : sqlite_engine) : Prop := {
  compare_refl : forall x, sql_compare engine x x = Eq;
  compare_flip : forall x y,
    sql_compare engine y x = CompOpp (sql_compare engine x y);
  compare_trans : forall x y z,
    sql_compare engine x y <> Gt -> sql_compare engine y z <> Gt ->
    sql_compare engine x z <> Gt
}.

(** The two library calls of [models.py] on a timestamp: the builtin
    [int(s)] on a string ([None] where it raises [ValueError]), and
    [datetime.fromtimestamp(n / 1000).strftime('%Y-%m-%d %H:%M:%S')] for an
    [int] [n], which reads the time zone of the process and raises out of
    the platform's range. *)
Record python_runtime : Type := {
  py_int : string -> option Z;
  local_datetime : Z -> result string
}.

Section Store.

Variable engine : sqlite_engine.
Variable runtime : python_runtime.

(** A row of [historical_data (symbol TEXT, timestamp INTEGER, datetime TEXT,
    open REAL, high REAL, low REAL, close REAL, volume REAL,
    PRIMARY KEY (symbol, timestamp))]. *)
Record historical_row : Type := {
  hd_symbol : string;
  hd_timestamp : sql_value engine;
  hd_datetime : string;
  hd_open : sql_value engine;
  hd_high : sql_value engine;
  hd_low : sql_value engine;
  hd_close : sql_value engine;
  hd_volume : sql_value engine
}.

(** The table, oldest insertion first. *)
Definition historical_table : Type := list historical_row.

Definition int_of_str (s : string) : result Z :=
  match py_int runtime s with
  | Some n => Ok n
  | None => Raise ValueError
  end.

(** [convert_timestamp_to_datetime]. *)
Definition convert_timestamp_to_datetime (timestamp : string)
  : result string :=
  n <- int_of_str timestamp ;;
  local_datetime runtime n.

(** The tuple of eight values bound to one [INSERT OR REPLACE INTO
    historical_data], as stored. *)
Definition bound_row (symbol timestamp datetime_str open_price high_price
    low_price close_price volume : string) : historical_row :=
  {| hd_symbol := symbol;
     hd_timestamp := integer_affinity engine timestamp;
     hd_datetime := datetime_str;
     hd_open := real_affinity engine open_price;
     hd_high := real_affinity engine high_price;
     hd_low := real_affinity engine low_price;
     hd_close := real_affinity engine close_price;
     hd_volume := real_affinity engine volume |}.

(** The row is stored under this primary key. *)
Definition same_candle_key (symbol : string) (timestamp : sql_value engine)
    (r : historical_row) : bool :=
  String.eqb (hd_symbol r) symbol
  && match sql_compare engine (hd_timestamp r) timestamp with
     | Eq => true
     | _ => false
     end.

(** One [INSERT OR REPLACE]: the row that has the same primary key is
    deleted, the new row is stored. *)
Definition insert_or_replace_row (tbl : historical_table)
    (row : historical_row) : historical_table :=
  filter (fun r => negb (same_candle_key (hd_symbol row) (hd_timestamp row) r))
    tbl
  ++ [row].

(** [insert_or_update_data]: the conversion of the timestamp comes first and
    is not caught. *)
Definition insert_or_update_data (tbl : historical_table)
    (symbol timestamp open_price high_price low_price close_price
       volume : string) : result historical_table :=
  datetime_str <- convert_timestamp_to_datetime timestamp ;;
  Ok (insert_or_replace_row tbl
        (bound_row symbol timestamp datetime_str open_price high_price
           low_price close_price volume)).

(** The key of [sorted(..., key=lambda x: int(x[0]))]. *)
Definition timestamp_key (c : candle) : result Z :=
  t <- subscript c 0 ;;
  int_of_str t.

(** [sorted(historical_candles['data'], key=lambda x: int(x[0]))]: the keys
    are computed first, one per candle, then the candles are sorted. *)
Definition sorted_by_timestamp (data : list candle) : result (list candle) :=
  keys <- comprehension timestamp_key data ;;
  Ok (map snd (sort_by (fun a b => (fst a <=? fst b)%Z) (combine keys data))).

(** The tuple the loop of [bulk_insert_historical_data] appends for a
    candle. *)
Definition candle_row (symbol : string) (c : candle) : result historical_row :=
  timestamp <- subscript c 0 ;;
  datetime_str <- convert_timestamp_to_datetime timestamp ;;
  open_price <- subscript c 1 ;;
  high_price <- subscript c 2 ;;
  low_price <- subscript c 3 ;;
  close_price <- subscript c 4 ;;
  volume <- subscript c 5 ;;
  Ok (bound_row symbol timestamp datetime_str open_price high_price low_price
        close_price volume).

(** [cursor.executemany]: one [INSERT OR REPLACE] per tuple, in order. *)
Definition executemany (tbl : historical_table) (rows : list historical_row)
  : historical_table :=
  fold_left insert_or_replace_row rows tbl.

(** [bulk_insert_historical_data]: [except Exception] prints, and nothing
    has been written, every statement that can raise coming before
    [executemany]. *)
Definition bulk_insert_historical_data (tbl : historical_table)
    (symbol : string) (historical_candles : candles_response)
  : historical_table :=
  let attempt :=
    data <- lookup_key (candles_data historical_candles) ;;
    sorted_candles <- sorted_by_timestamp data ;;
    data_to_insert <- comprehension (candle_row symbol) sorted_candles ;;
    Ok (executemany tbl data_to_insert) in
  match attempt with
  | Ok tbl' => tbl'
  | Raise _ => tbl
  end.



(** The call of [insert_or_update_data] in the loop of
    [fetch_and_store_data], with the six fields of the latest candle. *)
Definition insert_latest (tbl : historical_table) (symbol : string)
    (latest_data : candle) : result historical_table :=
  timestamp <- subscript latest_data 0 ;;
  open_price <- subscript latest_data 1 ;;
  high_price <- subscript latest_data 2 ;;
  low_price <- subscript latest_data 3 ;;
  close_price <- subscript latest_data 4 ;;
  volume <- subscript latest_data 5 ;;
  insert_or_update_data tbl symbol timestamp open_price high_price low_price
    close_price volume.

(** One iteration of the [while True] of [fetch_and_store_data]. *)
Definition refresh_latest (tbl : historical_table) (ex : exchange)
    (symbol timeframe : string) : result historical_table :=
  latest_candles <- get_candlesticks ex symbol timeframe "1" ;;
  match candles_data latest_candles with
  | Some data =>
      latest_data <- subscript data 0 ;;
      insert_latest tbl symbol latest_data
  | None => Ok tbl
  end.

(** The first iterations of the [while True], one per element of [answers]:
    the [try] is around the loop, so the first exception ends it. *)
Fixpoint refresh_loop (tbl : historical_table) (symbol timeframe : string)
    (answers : list exchange) : historical_table :=
  match answers with
  | [] => tbl
  | ex :: later =>
      match refresh_latest tbl ex symbol timeframe with
      | Ok tbl' => refresh_loop tbl' symbol timeframe later
      | Raise _ => tbl
      end
  end.

(** [fetch_and_store_data] on the table the database file holds: the
    initial load against [first], then the loop. *)
Definition fetch_and_store_data (tbl : historical_table) (first : exchange)
    (answers : list exchange) (symbol timeframe : string) (limit : Z)
  : historical_table :=
  match get_candlesticks first symbol timeframe (str limit) with
  | Ok historical_candles =>
      let loaded :=
        match candles_data historical_candles with
        | Some _ => bulk_insert_historical_data tbl symbol historical_candles
        | None => tbl
        end in
      refresh_loop loaded symbol timeframe answers
  | Raise _ => tbl
  end.

(** The rows stored under a key. *)
Definition candle_rows_at (tbl : historical_table) (symbol : string)
    (timestamp : sql_value engine) : list historical_row :=
  filter (same_candle_key symbol timestamp) tbl.

End Store.

(** The number an unsigned decimal literal denotes. *)
Definition digits_value (s : string) : option Z :=
  match NilEmpty.uint_of_string s with
  | Some d =>
      if (0 <? String.length s)%nat then Some (Z.of_N (N.of_uint d)) else None
  | None => None
  end.

(** An engine for the examples: it stores the number a decimal literal
    denotes, and -1 for any other text. *)
Definition example_engine : sqlite_engine := {|
  sql_value := Z;
  integer_affinity := fun s =>
    match digits_value s with Some n => n | None => (-1)%Z end;
  real_affinity := fun s =>
    match digits_value s with Some n => n | None => (-1)%Z end;
  sql_compare := Z.compare
|}.

(** A runtime for the examples: decimal literals, and a fixed text for every
    instant. *)
Definition example_runtime : python_runtime := {|
  py_int := digits_value;
  local_datetime := fun n => Ok ("at " ++ str n)%string
|}.

(** At most one row under every primary key. *)
Definition keys_unique (engine : sqlite_engine)
    (tbl : historical_table engine) : Prop :=
  forall symbol timestamp,
    (length (candle_rows_at engine tbl symbol timestamp) <= 1)%nat.

(** [insert_or_update_data] called on each candle in turn, as the loop of
    [fetch_and_store_data] calls it, stopping at the first exception. *)
Definition insert_each (engine : sqlite_engine) (runtime : python_runtime)
    (tbl : historical_table engine) (symbol : string) (candles : list candle)
  : result (historical_table engine) :=
  fold_left
    (fun acc c => t <- acc ;; insert_latest engine runtime t symbol c)
    candles (Ok tbl).

(** The order of [sorted(..., key=lambda x: int(x[0]))] on two candles. *)
Definition timestamp_not_after (runtime : python_runtime) (a b : candle)
  : Prop :=
  exists ka kb,
    timestamp_key runtime a = Ok ka /\ timestamp_key runtime b = Ok kb
    /\ (ka <= kb)%Z.

(** An exchange that answers the candle request with [data] (or fails it
    when there is none), quotes [last] and accepts every order. *)
Definition quoting_exchange (data : option (list candle)) (last : string)
  : exchange := {|
  get_candlesticks := fun _ _ _ =>
    match data with
    | Some candles => Ok {| candles_data := Some candles |}
    | None => Raise RemoteError
    end;
  get_ticker := fun _ =>
    Ok {| ticker_data := Some [{| ticker_last := Some last |}] |};
  place_order := fun request => Ok ("order " ++ sz request)%string
|}.

(** Fifteen candles whose sixth field falls from 100 to 86. *)
Definition falling_candles : list candle :=
  map (fun v => ["0"; "0"; "0"; "0"; "0"; v])
    ["100"; "99"; "98"; "97"; "96"; "95"; "94"; "93"; "92"; "91"; "90";
     "89"; "88"; "87"; "86"]%string.

(** A candle with two fields only. *)
Definition short_candle : candle := ["3000"; "1"].

(** Three iterations of the loop on falling sixth fields: the price is 105,
    then 110, then 100, and the exchange quotes the same price to an
    entry. *)
Definition quiet_cycle (last : string) : cycle_answers := {|
  feed := quoting_exchange (Some falling_candles) last;
  on_entry := quoting_exchange None last;
  on_exit := quoting_exchange None last
|}.

Definition example_cycles : list cycle_answers :=
  [quiet_cycle "105"; quiet_cycle "110"; quiet_cycle "100"].

(** An iteration whose entry is filled at 105 after the loop has read 100. *)
Definition slipping_cycle : cycle_answers := {|
  feed := quoting_exchange (Some falling_candles) "100";
  on_entry := quoting_exchange None "105";
  on_exit := quoting_exchange None "100"
|}.

(** An iteration whose candle request fails while the price has fallen to
    50. *)
Definition blind_cycle : cycle_answers := {|
  feed := quoting_exchange None "50";
  on_entry := quoting_exchange None "50";
  on_exit := quoting_exchange None "50"
|}.

(** ** Facts about the outcomes and the numbers *)

Lemma subscript_last_app {A : Type} (xs : list A) (x : A) :
  subscript_last (xs ++ [x]) = Ok x.
Proof.
  unfold subscript_last. rewrite rev_app_distr. reflexivity.
Qed.

Lemma subscript_last_repeat {A : Type} (x : A) (n : nat) :
  subscript_last (repeat x (S n)) = Ok x.
Proof.
  replace (repeat x (S n)) with (repeat x n ++ [x]).
  - apply subscript_last_app.
  - symmetry. apply (repeat_cons n x).
Qed.

(** NaN is below nothing. *)
Lemma nan_not_below (x : float) : PrimFloat.ltb nan x = false.
Proof.
  rewrite FloatAxioms.ltb_spec. reflexivity.
Qed.

(** A strictly positive float is not zero. *)
Lemma positive_not_zero (x : float) :
  PrimFloat.ltb 0 x = true -> PrimFloat.eqb x 0 = false.
Proof.
  rewrite FloatAxioms.ltb_spec, FloatAxioms.eqb_spec.
  change (Prim2SF 0) with (S754_zero false).
  unfold SFltb, SFeqb.
  destruct (Prim2SF x) as [s | s | | s m e]; simpl; try discriminate;
    destruct s; intros H; try discriminate H; reflexivity.
Qed.


(** ** The indicator on a short history *)

Lemma talib_RSI_accepts (real : list float) (timeperiod : Z) :
  (2 <= timeperiod <= 100000)%Z ->
  exists out, talib.RSI real timeperiod = Ok out.
Proof.
  intros Hp. unfold talib.RSI.
  replace ((timeperiod <? 2) || (100000 <? timeperiod))%Z with false
    by (symmetry; apply orb_false_iff; split; apply Z.ltb_ge; lia).
  destruct real as [| first rest]; [eexists; reflexivity |].
  destruct (length rest <? Z.to_nat timeperiod)%nat; eexists; reflexivity.
Qed.

Lemma talib_RSI_short (real : list float) (timeperiod : Z) :
  (2 <= timeperiod <= 100000)%Z ->
  (length real < Z.to_nat timeperiod + 1)%nat ->
  talib.RSI real timeperiod = Ok (repeat nan (length real)).
Proof.
  intros Hp Hshort. unfold talib.RSI.
  replace ((timeperiod <? 2) || (100000 <? timeperiod))%Z with false
    by (symmetry; apply orb_false_iff; split; apply Z.ltb_ge; lia).
  destruct real as [| first rest]; [reflexivity |].
  simpl length in *.
  replace (length rest <? Z.to_nat timeperiod)%nat with true
    by (symmetry; apply Nat.ltb_lt; lia).
  reflexivity.
Qed.

Lemma rsi_smooth_length (period : Z) (xs : list float) :
  forall prev gain loss,
    length (talib.rsi_smooth period prev gain loss xs) = length xs.
Proof.
  induction xs as [| x rest IH]; intros prev gain loss; simpl.
  - reflexivity.
  - rewrite IH. reflexivity.
Qed.

(** One value per input element. *)
Lemma talib_RSI_length (real out : list float) (timeperiod : Z) :
  talib.RSI real timeperiod = Ok out -> length out = length real.
Proof.
  unfold talib.RSI.
  destruct ((timeperiod <? 2) || (100000 <? timeperiod))%Z; [discriminate |].
  destruct real as [| first rest].
  - intros H. injection H as <-. reflexivity.
  - destruct (length rest <? Z.to_nat timeperiod)%nat eqn:Hlen;
      intros H; injection H as <-.
    + apply (repeat_length nan (length (first :: rest))).
    + apply Nat.ltb_ge in Hlen.
      unfold talib.rsi_body.
      destruct (talib.rsi_warm_up first 0 0 (firstn (Z.to_nat timeperiod) rest))
        as [[prev gain] loss].
      rewrite length_app, repeat_length. simpl.
      rewrite rsi_smooth_length, length_skipn. lia.
Qed.

(** With a period the library accepts, a non-empty history has a latest RSI
    value. *)
Lemma latest_rsi_defined (cfg : config) (prices : list float) :
  accepted_period cfg -> prices <> [] ->
  exists r, latest_rsi cfg prices = Ok r.
Proof.
  intros Hp Hne. unfold latest_rsi, calculate_rsi.
  destruct (talib_RSI_accepts prices _ Hp) as [out Hout].
  rewrite Hout. simpl.
  apply talib_RSI_length in Hout.
  unfold subscript_last.
  destruct (rev out) as [| r rest] eqn:Hrev.
  - apply (f_equal (@length float)) in Hrev. rewrite length_rev in Hrev.
    destruct prices; [contradiction | simpl in *; lia].
  - exists r. reflexivity.
Qed.

(** The empty history has no latest RSI value: [rsi_values[-1]] raises. *)
Lemma latest_rsi_empty (cfg : config) :
  accepted_period cfg -> latest_rsi cfg [] = Raise IndexError.
Proof.
  intros Hp. unfold latest_rsi, calculate_rsi.
  rewrite (talib_RSI_short [] _ Hp) by (simpl; lia).
  reflexivity.
Qed.

(** [check_entry_conditions] in terms of the latest RSI value. *)
Lemma check_entry_conditions_unfold (cfg : config) (pos : position)
    (prices : list float) (current_price : float) :
  check_entry_conditions cfg pos prices current_price =
  (current_rsi <- latest_rsi cfg prices ;;
   if (position_size pos =? 0)%Z
      && PrimFloat.ltb current_rsi (float_of_Z (rsi_oversold cfg))
   then Ok (Some buy1)
   else if (position_size pos =? buy1_size cfg)%Z
           && gtb current_price (buy2_trigger cfg pos)
   then Ok (Some buy2)
   else Ok None).
Proof.
  unfold check_entry_conditions, latest_rsi.
  destruct (calculate_rsi cfg prices); reflexivity.
Qed.

(** ** The exit decision *)

(** C4: with a non-zero position size, [check_exit_conditions] returns
    'immediate_exit' whenever the current price is strictly below
    [avg_price * (1 - immediate_exit_threshold/100)], before it looks at
    take-profit and stop-loss; otherwise it returns 'tp_sl' whenever the price
    is at or below the stop-loss price or at or above the take-profit price.
    A price below the immediate-exit level and at the stop-loss level gives
    'immediate_exit', not 'tp_sl'. *)
Theorem immediate_exit_before_tp_sl (cfg : config) (pos : position)
    (prices : list float) (current_price : float) :
  position_size pos <> 0%Z ->
  (PrimFloat.ltb current_price (immediate_exit_price cfg pos) = true ->
   check_exit_conditions cfg pos prices current_price = Some immediate_exit)
  /\ (PrimFloat.ltb current_price (immediate_exit_price cfg pos) = false ->
      PrimFloat.leb current_price (stop_loss_price cfg pos) = true
      \/ geb current_price (take_profit_price cfg pos) = true ->
      check_exit_conditions cfg pos prices current_price = Some tp_sl)
  /\ (PrimFloat.ltb current_price (immediate_exit_price cfg pos) = true ->
      PrimFloat.leb current_price (stop_loss_price cfg pos) = true ->
      check_exit_conditions cfg pos prices current_price = Some immediate_exit
      /\ check_exit_conditions cfg pos prices current_price <> Some tp_sl).
Proof.
  intros Hsize. apply Z.eqb_neq in Hsize.
  unfold check_exit_conditions. rewrite Hsize.
  split; [| split].
  - intros ->. reflexivity.
  - intros -> [-> | ->]; [reflexivity | rewrite orb_true_r; reflexivity].
  - intros -> _. split; [reflexivity | discriminate].
Qed.

(** The scenario of the spec: position {40, 100}, thresholds 2% and 3%, price
    97, which is below the immediate-exit price 98 and at the stop price 97. *)
Lemma immediate_exit_before_tp_sl_witness :
  let pos := {| position_size := 40; position_avg_price := 100 |} in
  immediate_exit_price default_config pos = 98
  /\ stop_loss_price default_config pos = 97
  /\ check_exit_conditions default_config pos [] 97 = Some immediate_exit
  /\ check_exit_conditions default_config pos [] 97 <> Some tp_sl
  /\ check_exit_conditions default_config pos [] 105 = Some tp_sl.
Proof.
  intros pos.
  assert (Hsize : position_size pos <> 0%Z) by discriminate.
  destruct (immediate_exit_before_tp_sl default_config pos [] 97 Hsize)
    as [_ [_ Hboth]].
  destruct (immediate_exit_before_tp_sl default_config pos [] 105 Hsize)
    as [_ [Htp _]].
  specialize (Hboth eq_refl eq_refl). destruct Hboth as [Hie Hnot].
  specialize (Htp eq_refl (or_intror eq_refl)).
  repeat split; try reflexivity; assumption.
Defined.

(** The stop-loss scenario: position {40, 100} with the configured
    thresholds, price 96 below the stop price 97. The price is also below the
    immediate-exit price 98, so the signal is 'immediate_exit'. *)
Theorem stop_loss_scenario_exits_immediately :
  stop_loss_price default_config first_tranche = 97
  /\ immediate_exit_price default_config first_tranche = 98
  /\ check_exit_conditions default_config first_tranche [] 96
     = Some immediate_exit.
Proof. repeat split. Qed.

(** C10: for every position, configuration and current price, and any two
    price histories, [check_exit_conditions] gives the same exit signal: the
    exit decision does not depend on the historical prices. *)
Theorem exit_ignores_history (cfg : config) (pos : position)
    (p1 p2 : list float) (current_price : float) :
  check_exit_conditions cfg pos p1 current_price
  = check_exit_conditions cfg pos p2 current_price.
Proof.
  unfold check_exit_conditions.
  destruct (position_size pos =? 0)%Z; reflexivity.
Qed.

(** ** Executing an exit *)

(** C5: for every position with a non-zero size, an exit whose order is
    accepted sets the position to {size: 0, avg_price: 0}; the order it sends
    is for the whole position size, whatever that size is. *)
Theorem exit_closes_whole_position (ex : exchange) (pos : position)
    (symbol : string) (placed : order) :
  position_size pos <> 0%Z ->
  place_order ex (exit_request pos symbol) = Ok placed ->
  exit_position ex pos symbol
  = (Some placed, {| position_size := 0; position_avg_price := 0 |})
  /\ sz (exit_request pos symbol) = str (position_size pos).
Proof.
  intros _ Hplaced. unfold exit_position. rewrite Hplaced.
  split; reflexivity.
Qed.

(** A long position of 40 is closed by one sell order for 40. *)
Lemma exit_closes_whole_position_witness :
  exit_position answering_exchange first_tranche "XRP-USDT"
  = (Some "order 40"%string, initial_position)
  /\ exit_request first_tranche "XRP-USDT"
     = {| instId := "XRP-USDT"; tdMode := "cross"; side := "sell";
          ordType := "market"; sz := "40" |}.
Proof.
  destruct (exit_closes_whole_position answering_exchange first_tranche
              "XRP-USDT" "order 40"%string) as [Hexit _].
  - discriminate.
  - reflexivity.
  - split; [exact Hexit | reflexivity].
Defined.

(** ** The entry decision and its execution *)

Section Entry.

Variable py_float : string -> option float.

(** An entry whose two remote calls succeed adds its size to the position
    and overwrites the average price with the price it fetched. *)
Lemma enter_position_accepted (ex : exchange) (pos : position)
    (symbol side : string) (size : Z) (price : float) (placed : order) :
  get_current_price py_float ex symbol = Ok price ->
  place_order ex {| instId := symbol; tdMode := "cross"; side := side;
                    ordType := "market"; sz := str size |} = Ok placed ->
  enter_position py_float ex pos symbol side size
  = (Some placed, {| position_size := position_size pos + size;
                     position_avg_price := price |}).
Proof.
  intros Hprice Hplaced. unfold enter_position.
  rewrite Hprice. simpl. rewrite Hplaced. reflexivity.
Qed.

(** An entry with a failed remote call returns [None] and leaves the
    position as it was. *)
Lemma enter_position_refused (ex : exchange) (pos : position)
    (symbol side : string) (size : Z) :
  fst (enter_position py_float ex pos symbol side size) = None ->
  snd (enter_position py_float ex pos symbol side size) = pos.
Proof.
  unfold enter_position.
  destruct (get_current_price py_float ex symbol) as [price | e]; simpl;
    [| reflexivity].
  destruct (place_order ex _) as [placed | e]; simpl;
    [discriminate | reflexivity].
Qed.

(** C2: from a position of size 0, [check_entry_conditions] returns 'buy1'
    for every price history whose latest RSI value is strictly below the
    oversold threshold, and does not return 'buy1' when there is no such
    value; executing the first entry of size 40 at the fetched current
    price turns the position into {size: 40, avg_price: current_price}. *)
Theorem buy1_from_flat (cfg : config) (pos : position)
    (prices : list float) (current_price : float) :
  position_size pos = 0%Z ->
  (forall current_rsi,
      latest_rsi cfg prices = Ok current_rsi ->
      PrimFloat.ltb current_rsi (float_of_Z (rsi_oversold cfg)) = true ->
      check_entry_conditions cfg pos prices current_price = Ok (Some buy1))
  /\ ((forall current_rsi,
          latest_rsi cfg prices = Ok current_rsi ->
          PrimFloat.ltb current_rsi (float_of_Z (rsi_oversold cfg)) = false) ->
      check_entry_conditions cfg pos prices current_price <> Ok (Some buy1))
  /\ (forall ex symbol price placed,
         get_current_price py_float ex symbol = Ok price ->
         place_order ex {| instId := symbol; tdMode := "cross";
                           side := "buy"; ordType := "market";
                           sz := str (buy1_size default_config) |}
         = Ok placed ->
         enter_position py_float ex pos symbol "buy"
           (buy1_size default_config)
         = (Some placed, {| position_size := 40;
                            position_avg_price := price |})).
Proof.
  intros Hflat. rewrite check_entry_conditions_unfold.
  split; [| split].
  - intros current_rsi -> Hbelow. simpl.
    rewrite Hflat, Hbelow. reflexivity.
  - intros Hnot.
    destruct (latest_rsi cfg prices) as [current_rsi | e]; simpl;
      [| discriminate].
    rewrite (Hnot current_rsi eq_refl), andb_false_r.
    destruct (_ && _); discriminate.
  - intros ex symbol price placed Hprice Hplaced.
    rewrite (enter_position_accepted ex pos symbol "buy" _ price placed
               Hprice Hplaced).
    rewrite Hflat. reflexivity.
Qed.

End Entry.

Lemma enter_position_refused_witness :
  snd (enter_position float_of_digits unreachable_exchange first_tranche
         "XRP-USDT" "buy" 7)
  = first_tranche.
Proof.
  apply enter_position_refused. reflexivity.
Defined.

(** The flat-entry scenario: the falling closes give a latest RSI of 0, below
    33, and the entry is executed at the last price 105. *)
Lemma buy1_from_flat_witness :
  latest_rsi default_config falling_prices = Ok 0%float
  /\ check_entry_conditions default_config initial_position falling_prices 86
     = Ok (Some buy1)
  /\ enter_position float_of_digits answering_exchange initial_position
       "XRP-USDT" "buy" 40
     = (Some "order 40"%string,
        {| position_size := 40; position_avg_price := 105 |}).
Proof.
  destruct (buy1_from_flat float_of_digits default_config initial_position
              falling_prices 86 eq_refl) as [Hbuy1 [_ Henter]].
  split; [reflexivity | split].
  - apply (Hbuy1 0%float); reflexivity.
  - apply Henter; reflexivity.
Defined.

Section SecondTranche.

Variable py_float : string -> option float.

(** No entry signal comes from a size that is neither 0 nor the first-entry
    size. *)
Lemma no_entry_signal_from_other_sizes (cfg : config) (pos : position)
    (prices : list float) (current_price : float) (signal : entry_signal) :
  position_size pos <> 0%Z -> position_size pos <> buy1_size cfg ->
  check_entry_conditions cfg pos prices current_price <> Ok (Some signal).
Proof.
  intros Hflat Hfirst. rewrite check_entry_conditions_unfold.
  apply Z.eqb_neq in Hflat. apply Z.eqb_neq in Hfirst.
  destruct (latest_rsi cfg prices) as [current_rsi | e]; simpl;
    [| discriminate].
  rewrite Hflat, Hfirst. discriminate.
Qed.

(** C3, amended: on a non-empty price history [check_entry_conditions]
    returns 'buy2' exactly when the position size equals the first-entry
    size and the current price strictly exceeds
    [avg_price * (1 + buy2_offset/100)]; the test being an equality with the
    first-entry size, once the second tranche has executed (size =
    first-entry + second-entry, 47 with the configured sizes) no entry
    signal of any kind is produced from that state, whatever the history
    and the price. *)
Theorem buy2_only_after_first_tranche (cfg : config) (pos : position)
    (prices : list float) (current_price : float) :
  accepted_period cfg -> (0 < buy1_size cfg)%Z -> (0 < buy2_size cfg)%Z ->
  (check_entry_conditions cfg pos prices current_price = Ok (Some buy2) ->
   position_size pos = buy1_size cfg
   /\ gtb current_price (buy2_trigger cfg pos) = true)
  /\ (prices <> [] ->
      position_size pos = buy1_size cfg ->
      gtb current_price (buy2_trigger cfg pos) = true ->
      check_entry_conditions cfg pos prices current_price = Ok (Some buy2))
  /\ (forall ex symbol price placed,
         position_size pos = buy1_size cfg ->
         get_current_price py_float ex symbol = Ok price ->
         place_order ex {| instId := symbol; tdMode := "cross";
                           side := "buy"; ordType := "market";
                           sz := str (buy2_size cfg) |} = Ok placed ->
         let pos' :=
           snd (enter_position py_float ex pos symbol "buy" (buy2_size cfg))
         in
         position_size pos' = (buy1_size cfg + buy2_size cfg)%Z
         /\ forall later_prices later_price signal,
             check_entry_conditions cfg pos' later_prices later_price
             <> Ok (Some signal)).
Proof.
  intros Hperiod Hbuy1 Hbuy2. split; [| split].
  - rewrite check_entry_conditions_unfold.
    destruct (latest_rsi cfg prices) as [current_rsi | e]; simpl;
      [| discriminate].
    destruct (_ && PrimFloat.ltb _ _); [discriminate |].
    destruct (position_size pos =? buy1_size cfg)%Z eqn:Hsize; simpl;
      [| discriminate].
    destruct (gtb current_price (buy2_trigger cfg pos)); [| discriminate].
    intros _. apply Z.eqb_eq in Hsize. split; [exact Hsize | reflexivity].
  - intros Hne Hsize Hprice. rewrite check_entry_conditions_unfold.
    destruct (latest_rsi_defined cfg prices Hperiod Hne) as [r ->]. simpl.
    replace (position_size pos =? 0)%Z with false
      by (symmetry; apply Z.eqb_neq; lia).
    rewrite Hsize, Z.eqb_refl. simpl.
    rewrite Hprice. reflexivity.
  - intros ex symbol price placed Hsize Hfetched Hplaced pos'.
    assert (Hpos' : position_size pos'
                    = (buy1_size cfg + buy2_size cfg)%Z).
    { unfold pos'.
      rewrite (enter_position_accepted py_float ex pos symbol "buy" _
                 price placed Hfetched Hplaced).
      simpl. rewrite Hsize. reflexivity. }
    split; [exact Hpos' |].
    intros later_prices later_price signal.
    apply no_entry_signal_from_other_sizes; lia.
Qed.

End SecondTranche.

(** The second-tranche scenario: position {40, 100}, offset 4, price 105 above
    the trigger 104; the entry of 7 gives a size of 47, from which the falling
    closes (RSI 0) and a price of 200 give no signal. *)
Lemma buy2_only_after_first_tranche_witness :
  buy2_trigger default_config first_tranche = 104%float
  /\ check_entry_conditions default_config first_tranche falling_prices 105
     = Ok (Some buy2)
  /\ snd (enter_position float_of_digits answering_exchange first_tranche
            "XRP-USDT" "buy" 7)
     = {| position_size := 47; position_avg_price := 105 |}
  /\ check_entry_conditions default_config
       {| position_size := 47; position_avg_price := 105 |}
       falling_prices 200
     <> Ok (Some buy1).
Proof.
  assert (Hperiod : accepted_period default_config)
    by (unfold accepted_period; simpl; lia).
  destruct (buy2_only_after_first_tranche float_of_digits default_config
              first_tranche falling_prices 105 Hperiod eq_refl eq_refl)
    as [_ [Hbuy2 Hafter]].
  split; [reflexivity | split; [| split]].
  - apply Hbuy2; [discriminate | reflexivity | reflexivity].
  - reflexivity.
  - destruct (Hafter answering_exchange "XRP-USDT" 105%float
                "order 7"%string eq_refl eq_refl eq_refl) as [_ Hnone].
    exact (Hnone falling_prices 200%float buy1).
Defined.

(** C3 as stated fails on the empty history: the position holds the first
    tranche and the price 105 is above the trigger 104, yet the call raises
    instead of returning 'buy2'. *)
Lemma buy2_not_on_empty_history :
  position_size first_tranche = buy1_size default_config
  /\ gtb 105 (buy2_trigger default_config first_tranche) = true
  /\ check_entry_conditions default_config first_tranche [] 105
     = Raise IndexError.
Proof. repeat split. Qed.

(** C6, amended: for every price history with fewer than period + 1 elements
    the indicator is NaN at every element; when the history is not empty,
    [check_entry_conditions] does not raise and never returns 'buy1': it
    returns 'buy2' when the position size equals the first-entry size and the
    price exceeds the second-entry trigger, and None otherwise, so None from
    a flat position. *)
Theorem short_history_gives_no_buy1 (cfg : config) (pos : position)
    (prices : list float) (current_price : float) :
  accepted_period cfg ->
  (length prices < Z.to_nat (rsi_length cfg) + 1)%nat ->
  calculate_rsi cfg prices = Ok (repeat nan (length prices))
  /\ (prices <> [] ->
      check_entry_conditions cfg pos prices current_price
      = Ok (if (position_size pos =? buy1_size cfg)%Z
               && gtb current_price (buy2_trigger cfg pos)
            then Some buy2 else None))
  /\ (prices <> [] -> position_size pos = 0%Z -> buy1_size cfg <> 0%Z ->
      check_entry_conditions cfg pos prices current_price = Ok None).
Proof.
  intros Hperiod Hshort.
  assert (Hrsi : calculate_rsi cfg prices = Ok (repeat nan (length prices)))
    by (apply talib_RSI_short; assumption).
  assert (Hentry : prices <> [] ->
            check_entry_conditions cfg pos prices current_price
            = Ok (if (position_size pos =? buy1_size cfg)%Z
                     && gtb current_price (buy2_trigger cfg pos)
                  then Some buy2 else None)).
  { intros Hne. unfold check_entry_conditions. rewrite Hrsi.
    destruct prices as [| p rest]; [contradiction |].
    unfold bind at 1.
    change (length (p :: rest)) with (S (length rest)).
    rewrite (subscript_last_repeat nan (length rest)). unfold bind.
    rewrite nan_not_below, andb_false_r.
    destruct (_ && _); reflexivity. }
  split; [exact Hrsi | split; [exact Hentry |]].
  intros Hne Hflat Hbuy1. rewrite (Hentry Hne), Hflat.
  replace (0 =? buy1_size cfg)%Z with false
    by (symmetry; apply Z.eqb_neq; lia).
  reflexivity.
Qed.

(** Three closes where fifteen are needed: the indicator is NaN three times
    and a flat position gets no signal. *)
Lemma short_history_gives_no_buy1_witness :
  calculate_rsi default_config [100; 99; 98]%float = Ok [nan; nan; nan]
  /\ check_entry_conditions default_config initial_position
       [100; 99; 98]%float 98
     = Ok None.
Proof.
  assert (Hperiod : accepted_period default_config)
    by (unfold accepted_period; simpl; lia).
  assert (Hshort : (length [100; 99; 98]%float
                    < Z.to_nat (rsi_length default_config) + 1)%nat)
    by (simpl; lia).
  destruct (short_history_gives_no_buy1 default_config initial_position
              [100; 99; 98]%float 98 Hperiod Hshort) as [Hrsi [_ Hnone]].
  split; [exact Hrsi |].
  apply Hnone; [discriminate | reflexivity | simpl; discriminate].
Defined.

(** C6 as stated fails twice: on a one-element history a position holding
    the first tranche still gets 'buy2', not None; and on the empty history
    the call raises. *)
Lemma short_history_still_signals :
  (length [100%float] < Z.to_nat (rsi_length default_config) + 1)%nat
  /\ check_entry_conditions default_config first_tranche [100%float] 105
     = Ok (Some buy2)
  /\ check_entry_conditions default_config initial_position [] 86
     = Raise IndexError.
Proof.
  split; [simpl; lia | split; reflexivity].
Qed.

(** On the empty history, which is what [get_historical_prices] hands over
    after a remote error, [check_entry_conditions] raises [IndexError] at
    [rsi_values[-1]], for every position and every price. *)
Theorem entry_check_raises_on_empty_history (cfg : config) (pos : position)
    (current_price : float) :
  accepted_period cfg ->
  check_entry_conditions cfg pos [] current_price = Raise IndexError.
Proof.
  intros Hperiod. rewrite check_entry_conditions_unfold.
  rewrite (latest_rsi_empty cfg Hperiod). reflexivity.
Qed.

Lemma entry_check_raises_on_empty_history_witness :
  check_entry_conditions default_config initial_position [] 105
  = Raise IndexError.
Proof.
  apply entry_check_raises_on_empty_history.
  unfold accepted_period; simpl; lia.
Defined.

(** ** Remote errors in the price feed *)

Section RemoteErrors.

Variable py_float : string -> option float.

(** Whatever is raised inside the [try] of [get_historical_prices], the
    caller gets the empty list. *)
Lemma get_historical_prices_catches (ex : exchange) (symbol : string)
    (limit : Z) (e : exn) :
  fetch_historical_prices py_float ex symbol limit = Raise e ->
  get_historical_prices py_float ex symbol limit = [].
Proof.
  intros Hraise. unfold get_historical_prices. rewrite Hraise. reflexivity.
Qed.

(** C7, amended: a remote error raised during [get_historical_prices] is
    caught inside the operation and the caller receives the empty list;
    a remote error raised during [get_current_price] is not caught there:
    it reaches the caller, and the caller [enter_position] catches it,
    returns None and leaves the position as it was. *)
Theorem remote_error_handling (ex : exchange) (symbol : string)
    (limit : Z) (e : exn) :
  (get_candlesticks ex symbol "5m" (str limit) = Raise e ->
   get_historical_prices py_float ex symbol limit = [])
  /\ (get_ticker ex symbol = Raise e ->
      get_current_price py_float ex symbol = Raise e
      /\ forall pos side size,
          enter_position py_float ex pos symbol side size = (None, pos)).
Proof.
  split.
  - intros Hraise. apply (get_historical_prices_catches ex symbol limit e).
    unfold fetch_historical_prices. rewrite Hraise. reflexivity.
  - intros Hraise.
    assert (Hprice : get_current_price py_float ex symbol = Raise e)
      by (unfold get_current_price; rewrite Hraise; reflexivity).
    split; [exact Hprice |].
    intros pos side size. unfold enter_position.
    rewrite Hprice. reflexivity.
Qed.

End RemoteErrors.

(** With the exchange out of reach the history is empty, the current price
    is an exception, and an entry changes nothing. *)
Lemma remote_error_handling_witness :
  get_historical_prices float_of_digits unreachable_exchange "XRP-USDT" 100
  = []
  /\ get_current_price float_of_digits unreachable_exchange "XRP-USDT"
     = Raise RemoteError
  /\ enter_position float_of_digits unreachable_exchange first_tranche
       "XRP-USDT" "buy" 7
     = (None, first_tranche).
Proof.
  destruct (remote_error_handling float_of_digits unreachable_exchange
              "XRP-USDT" 100 RemoteError) as [Hhistory Hprice].
  destruct (Hprice eq_refl) as [Hraised Henter].
  split; [exact (Hhistory eq_refl) | split; [exact Hraised |]].
  apply Henter.
Defined.

(** C7 as stated fails for [get_current_price]: the remote error is the
    outcome of the call, not a None result. *)
Lemma get_current_price_propagates :
  get_ticker unreachable_exchange "XRP-USDT" = Raise RemoteError
  /\ get_current_price float_of_digits unreachable_exchange "XRP-USDT"
     = Raise RemoteError.
Proof. split; reflexivity. Qed.

(** ** What [get_historical_prices] returns *)

Section RecentCloses.

Variable py_float : string -> option float.

(** On a successful answer the result is [float(candle[5])] for each candle
    of the answer, in the order of the answer: the field the store calls
    volume, and no sort. *)
Lemma get_historical_prices_reads_volume (ex : exchange) (symbol : string)
    (limit : Z) (answer : candles_response) (data : list candle)
    (volumes : list float) :
  get_candlesticks ex symbol "5m" (str limit) = Ok answer ->
  candles_data answer = Some data ->
  comprehension
    (fun c : candle => s <- candle_volume c ;; float_of_str py_float s) data
  = Ok volumes ->
  get_historical_prices py_float ex symbol limit = volumes.
Proof.
  intros Hanswer Hdata Hvolumes.
  unfold get_historical_prices, fetch_historical_prices.
  rewrite Hanswer. simpl. rewrite Hdata. simpl.
  unfold candle_volume in Hvolumes. rewrite Hvolumes. reflexivity.
Qed.

End RecentCloses.

Lemma get_historical_prices_reads_volume_witness :
  get_historical_prices float_of_digits answering_exchange "XRP-USDT" 100
  = [float_of_Z 500; float_of_Z 400].
Proof.
  apply (get_historical_prices_reads_volume float_of_digits
           answering_exchange "XRP-USDT" 100
           {| candles_data := Some [newer_candle; older_candle] |}
           [newer_candle; older_candle]);
    reflexivity.
Defined.

(** C1: recent_closes is claimed to return the close of each of the most
    recent candles, ascending by time. On the two candles of the answering
    exchange (closes 11 at time 2000 and 9 at time 1000, delivered newest
    first) [get_historical_prices] returns the volumes 500 and 400 in the
    order of the answer, where the closes ascending by time are 9 and 11. *)
Theorem get_historical_prices_not_closes :
  get_historical_prices float_of_digits answering_exchange "XRP-USDT" 100
  = [500; 400]%float
  /\ comprehension
       (fun c : candle => s <- candle_close c ;; float_of_str float_of_digits s)
       [older_candle; newer_candle]
     = Ok [9; 11]%float
  /\ comprehension candle_timestamp [older_candle; newer_candle]
     = Ok ["1000"; "2000"]%string.
Proof. repeat split. Qed.

(** ** The position invariant *)

Section Invariant.

Variable py_float : string -> option float.

Lemma initial_position_long_or_flat : long_or_flat initial_position.
Proof.
  split; [simpl; lia |].
  split; reflexivity.
Qed.

Lemma perform_keeps_long_or_flat (pos : position) (op : operation) :
  long_or_flat pos -> positive_entry py_float op ->
  long_or_flat (perform py_float pos op).
Proof.
  intros Hpos Hop.
  destruct op as [ex symbol side size | ex symbol]; simpl.
  - destruct Hop as [Hsize Hprices]. unfold enter_position.
    destruct (get_current_price py_float ex symbol) as [price | e]; simpl;
      [| exact Hpos].
    destruct (place_order ex _) as [placed | e]; simpl; [| exact Hpos].
    destruct Hpos as [Hlong _].
    pose proof (positive_not_zero price (Hprices price eq_refl)) as Hnz.
    split; simpl; [lia |].
    unfold flat_iff_no_cost_basis; simpl. rewrite Hnz.
    split; [lia | discriminate].
  - unfold exit_position.
    destruct (place_order ex _) as [placed | e]; simpl; [| exact Hpos].
    apply initial_position_long_or_flat.
Qed.

Lemma run_keeps_long_or_flat (ops : list operation) :
  forall pos,
    long_or_flat pos -> Forall (positive_entry py_float) ops ->
    long_or_flat (run py_float ops pos).
Proof.
  induction ops as [| op rest IH]; intros pos Hpos Hops; simpl.
  - exact Hpos.
  - inversion Hops as [| ? ? Hop Hrest]; subst.
    apply IH; [| exact Hrest].
    apply perform_keeps_long_or_flat; assumption.
Qed.

(** C9: the position invariant [size == 0 <=> avg_price == 0] holds in the
    initial state and after every sequence of entry and exit calls,
    successful or not, provided every entry has a strictly positive size
    and every price an entry fetches is strictly positive. *)
Theorem position_invariant (ops : list operation) :
  Forall (positive_entry py_float) ops ->
  flat_iff_no_cost_basis initial_position
  /\ flat_iff_no_cost_basis (run py_float ops initial_position).
Proof.
  intros Hops. split.
  - apply initial_position_long_or_flat.
  - apply (run_keeps_long_or_flat ops initial_position);
      [apply initial_position_long_or_flat | exact Hops].
Qed.

End Invariant.

(** Two entries and an exit against the answering exchange, then one more
    entry: the position goes {40, 105}, {47, 105}, {0, 0}, {40, 105}. *)
Lemma position_invariant_witness :
  let entry size := Enter answering_exchange "XRP-USDT" "buy" size in
  let ops := [entry 40%Z; entry 7%Z; Exit answering_exchange "XRP-USDT";
              entry 40%Z] in
  run float_of_digits (firstn 2 ops) initial_position
  = {| position_size := 47; position_avg_price := 105 |}
  /\ run float_of_digits (firstn 3 ops) initial_position = initial_position
  /\ flat_iff_no_cost_basis (run float_of_digits ops initial_position).
Proof.
  intros entry ops.
  assert (Hentry : forall size, (0 < size)%Z ->
            positive_entry float_of_digits (entry size)).
  { intros size Hsize. split; [exact Hsize |].
    intros price Hprice. injection Hprice as <-. reflexivity. }
  assert (Hops : Forall (positive_entry float_of_digits) ops).
  { unfold ops.
    apply Forall_cons; [apply Hentry; reflexivity |].
    apply Forall_cons; [apply Hentry; reflexivity |].
    apply Forall_cons; [exact I |].
    apply Forall_cons; [apply Hentry; reflexivity | apply Forall_nil]. }
  split; [reflexivity | split; [reflexivity |]].
  exact (proj2 (position_invariant float_of_digits ops Hops)).
Defined.

(** ** Recording a signal *)

Module DatabaseFacts.

Import Database.

(** C8: record_signal is claimed to be an upsert keyed by (symbol,
    timestamp) that succeeds and stores the symbol. [insert_signal] takes
    no symbol and binds none, so on every table, timestamp and signal the
    statement fails on the NOT NULL symbol column and stores nothing. *)
Theorem insert_signal_always_fails (tbl : signals_table) (timestamp : Z)
    (signal : string) :
  insert_signal tbl timestamp signal = Raise IntegrityError.
Proof. reflexivity. Qed.

Lemma rows_at_app (xs ys : signals_table) (symbol : string) (timestamp : Z) :
  rows_at (xs ++ ys) symbol timestamp
  = rows_at xs symbol timestamp ++ rows_at ys symbol timestamp.
Proof. apply filter_app. Qed.

Lemma rows_at_removed (tbl : signals_table) (symbol : string)
    (timestamp : Z) :
  rows_at (filter (fun r => negb (same_key symbol timestamp r)) tbl)
    symbol timestamp = [].
Proof.
  unfold rows_at. induction tbl as [| r rest IH]; simpl; [reflexivity |].
  destruct (same_key symbol timestamp r) eqn:Hkey; simpl; [exact IH |].
  rewrite Hkey. exact IH.
Qed.

(** With the three columns bound, the statement is the upsert the schema
    asks for: it succeeds and leaves one row under the key, the one just
    written. *)
Lemma insert_or_replace_upserts (tbl : signals_table) (symbol : string)
    (timestamp : Z) (signal : string) :
  exists tbl',
    insert_or_replace tbl (Some symbol) (Some timestamp) (Some signal)
    = Ok tbl'
    /\ rows_at tbl' symbol timestamp
       = [{| row_symbol := symbol; row_timestamp := timestamp;
             row_signal := signal |}].
Proof.
  eexists. split; [reflexivity |].
  rewrite rows_at_app, rows_at_removed. unfold rows_at, same_key. simpl.
  rewrite String.eqb_refl, Z.eqb_refl. reflexivity.
Qed.

End DatabaseFacts.

(** ** The strategy loop *)

Section StrategyLoopFacts.

Variable py_float : string -> option float.

Lemma buy1_signal_is_from_flat (cfg : config) (pos : position)
    (prices : list float) (current_price : float) :
  check_entry_conditions cfg pos prices current_price = Ok (Some buy1) ->
  position_size pos = 0%Z.
Proof.
  rewrite check_entry_conditions_unfold.
  destruct (latest_rsi cfg prices) as [current_rsi | e]; simpl;
    [| discriminate].
  destruct (position_size pos =? 0)%Z eqn:Hflat; simpl.
  - intros _. apply Z.eqb_eq. exact Hflat.
  - destruct (_ && _); discriminate.
Qed.

Lemma buy2_signal_is_from_first_tranche (cfg : config) (pos : position)
    (prices : list float) (current_price : float) :
  check_entry_conditions cfg pos prices current_price = Ok (Some buy2) ->
  position_size pos = buy1_size cfg.
Proof.
  rewrite check_entry_conditions_unfold.
  destruct (latest_rsi cfg prices) as [current_rsi | e]; simpl;
    [| discriminate].
  destruct (_ && PrimFloat.ltb _ _); [discriminate |].
  destruct (position_size pos =? buy1_size cfg)%Z eqn:Hsize; simpl.
  - intros _. apply Z.eqb_eq. exact Hsize.
  - discriminate.
Qed.

(** Whatever the RSI period, the entry check raises on the empty history. *)
Lemma entry_check_needs_history (cfg : config) (pos : position)
    (current_price : float) :
  exists e, check_entry_conditions cfg pos [] current_price = Raise e.
Proof.
  unfold check_entry_conditions, calculate_rsi, talib.RSI.
  destruct ((rsi_length cfg <? 2) || (100000 <? rsi_length cfg))%Z;
    eexists; reflexivity.
Qed.



(** A property of positions that every entry the loop can make and every
    exit keep is kept by an iteration. *)
Lemma strategy_cycle_keeps (P : position -> Prop) (cfg : config)
    (symbol : string) (answers : cycle_answers) (pos : position) :
  P pos ->
  (position_size pos = 0%Z ->
   P (snd (enter_position py_float (on_entry answers) pos symbol "buy"
             (buy1_size cfg)))) ->
  (position_size pos = buy1_size cfg ->
   P (snd (enter_position py_float (on_entry answers) pos symbol "buy"
             (buy2_size cfg)))) ->
  (forall entered, P entered ->
                   P (snd (exit_position (on_exit answers) entered symbol))) ->
  P (strategy_cycle py_float cfg symbol pos answers).
Proof.
  intros Hpos Hbuy1 Hbuy2 Hexit.
  unfold strategy_cycle, attempt_cycle.
  destruct (get_current_price py_float (feed answers) symbol)
    as [current_price | e]; simpl; [| exact Hpos].
  destruct (check_entry_conditions cfg pos _ current_price)
    as [entry_signal | e] eqn:Hsignal; simpl; [| exact Hpos].
  assert (Hentered :
    P match entry_signal with
      | Some buy1 =>
          snd (enter_position py_float (on_entry answers) pos symbol "buy"
                 (buy1_size cfg))
      | Some buy2 =>
          snd (enter_position py_float (on_entry answers) pos symbol "buy"
                 (buy2_size cfg))
      | None => pos
      end).
  { destruct entry_signal as [[|] |].
    - apply Hbuy1. exact (buy1_signal_is_from_flat _ _ _ _ Hsignal).
    - apply Hbuy2. exact (buy2_signal_is_from_first_tranche _ _ _ _ Hsignal).
    - exact Hpos. }
  destruct (check_exit_conditions cfg _ _ current_price).
  - apply Hexit. exact Hentered.
  - exact Hentered.
Qed.


(** The position invariant [size == 0 <=> avg_price == 0] holds after any
    number of iterations of [run_strategy], when the two entry sizes are
    strictly positive and every price an entry fetches is strictly
    positive. *)
Theorem run_strategy_keeps_invariant (cfg : config) (symbol : string)
    (cycles : list cycle_answers) :
  (0 < buy1_size cfg)%Z -> (0 < buy2_size cfg)%Z ->
  Forall (positive_fills py_float symbol) cycles ->
  flat_iff_no_cost_basis
    (run_strategy py_float cfg symbol cycles initial_position).
Proof.
  intros Hbuy1 Hbuy2 Hcycles.
  apply (proj2 (A := (0 <= position_size
      (run_strategy py_float cfg symbol cycles initial_position))%Z)).
  change (long_or_flat
            (run_strategy py_float cfg symbol cycles initial_position)).
  unfold run_strategy.
  pose proof initial_position_long_or_flat as Hinit.
  revert Hinit. generalize initial_position as pos.
  induction Hcycles as [| answers later Hfills _ IH]; intros pos Hpos; simpl.
  - exact Hpos.
  - apply IH. apply strategy_cycle_keeps.
    + exact Hpos.
    + intros _.
      apply (perform_keeps_long_or_flat py_float pos
               (Enter (on_entry answers) symbol "buy" (buy1_size cfg)) Hpos).
      split; [exact Hbuy1 | exact Hfills].
    + intros _.
      apply (perform_keeps_long_or_flat py_float pos
               (Enter (on_entry answers) symbol "buy" (buy2_size cfg)) Hpos).
      split; [exact Hbuy2 | exact Hfills].
    + intros entered Hentered.
      exact (perform_keeps_long_or_flat py_float entered
               (Exit (on_exit answers) symbol) Hentered I).
Qed.

(** When the history comes back empty (the candle request failed, the answer
    had no 'data', a candle was malformed, or there was no candle) the
    iteration changes nothing: the entry check raises before the exit check
    is reached, so no exit is executed, whatever the price and the
    position. *)
Theorem cycle_without_history_does_nothing (cfg : config) (symbol : string)
    (pos : position) (answers : cycle_answers) :
  get_historical_prices py_float (feed answers) symbol 100 = [] ->
  strategy_cycle py_float cfg symbol pos answers = pos.
Proof.
  intros Hempty. unfold strategy_cycle, attempt_cycle. rewrite Hempty.
  destruct (get_current_price py_float (feed answers) symbol)
    as [current_price | e]; simpl; [| reflexivity].
  destruct (entry_check_needs_history cfg pos current_price) as [e ->].
  reflexivity.
Qed.

(** An iteration can buy and sell: when the first entry is signalled and
    accepted at the price [fill] it fetches, and the price [current_price]
    read at the top of the iteration is strictly below
    [fill * (1 - immediate_exit_threshold/100)], the exit check fires on the
    position just opened, and an accepted exit order leaves the position
    flat. *)
Theorem cycle_can_buy_then_sell (cfg : config) (symbol : string)
    (pos : position) (answers : cycle_answers) (current_price fill : float)
    (bought sold : order) :
  let opened := {| position_size := buy1_size cfg;
                   position_avg_price := fill |} in
  position_size pos = 0%Z -> buy1_size cfg <> 0%Z ->
  get_current_price py_float (feed answers) symbol = Ok current_price ->
  check_entry_conditions cfg pos
    (get_historical_prices py_float (feed answers) symbol 100) current_price
  = Ok (Some buy1) ->
  get_current_price py_float (on_entry answers) symbol = Ok fill ->
  place_order (on_entry answers)
    {| instId := symbol; tdMode := "cross"; side := "buy";
       ordType := "market"; sz := str (buy1_size cfg) |} = Ok bought ->
  PrimFloat.ltb current_price (immediate_exit_price cfg opened) = true ->
  place_order (on_exit answers) (exit_request opened symbol) = Ok sold ->
  strategy_cycle py_float cfg symbol pos answers = initial_position.
Proof.
  intros opened Hflat Hbuy1 Hprice Hsignal Hfill Hbought Hbelow Hsold.
  unfold strategy_cycle, attempt_cycle.
  rewrite Hprice. simpl. rewrite Hsignal. simpl.
  rewrite (enter_position_accepted py_float (on_entry answers) pos symbol
             "buy" (buy1_size cfg) fill bought Hfill Hbought).
  simpl snd. rewrite Hflat. change (0 + buy1_size cfg)%Z with (buy1_size cfg).
  fold opened.
  unfold check_exit_conditions.
  replace (position_size opened =? 0)%Z with false
    by (symmetry; apply Z.eqb_neq; exact Hbuy1).
  rewrite Hbelow. unfold exit_position. rewrite Hsold. reflexivity.
Qed.

(** Two accepted entries in a row leave the sum of the sizes and the price
    of the second entry as the average price: the cost basis of the first
    entry is overwritten, not blended. *)
Theorem second_entry_overwrites_cost_basis (ex1 ex2 : exchange)
    (pos : position) (symbol side : string) (size1 size2 : Z)
    (price1 price2 : float) (placed1 placed2 : order) :
  get_current_price py_float ex1 symbol = Ok price1 ->
  place_order ex1 {| instId := symbol; tdMode := "cross"; side := side;
                     ordType := "market"; sz := str size1 |} = Ok placed1 ->
  get_current_price py_float ex2 symbol = Ok price2 ->
  place_order ex2 {| instId := symbol; tdMode := "cross"; side := side;
                     ordType := "market"; sz := str size2 |} = Ok placed2 ->
  run py_float [Enter ex1 symbol side size1; Enter ex2 symbol side size2] pos
  = {| position_size := position_size pos + size1 + size2;
       position_avg_price := price2 |}.
Proof.
  intros Hprice1 Hplaced1 Hprice2 Hplaced2. unfold run. simpl.
  rewrite (enter_position_accepted py_float ex1 pos symbol side size1 price1
             placed1 Hprice1 Hplaced1). simpl.
  rewrite (enter_position_accepted py_float ex2 _ symbol side size2 price2
             placed2 Hprice2 Hplaced2). reflexivity.
Qed.

End StrategyLoopFacts.

(** ** Comprehensions and sorting *)

Lemma comprehension_raises {A B : Type} (f : A -> result B) (xs : list A)
    (x : A) (e : exn) :
  In x xs -> f x = Raise e -> exists e', comprehension f xs = Raise e'.
Proof.
  intros Hin Hraise. induction xs as [| y rest IH]; [contradiction |].
  simpl. destruct Hin as [-> | Hin].
  - rewrite Hraise. exists e. reflexivity.
  - destruct (f y) as [b | e0]; simpl; [| exists e0; reflexivity].
    destruct (IH Hin) as [e' ->]. exists e'. reflexivity.
Qed.

Lemma comprehension_all_ok {A B : Type} (f : A -> result B) (xs : list A) :
  (forall x, In x xs -> exists y, f x = Ok y) ->
  exists ys, comprehension f xs = Ok ys.
Proof.
  induction xs as [| x rest IH]; intros Hall; simpl.
  - exists []. reflexivity.
  - destruct (Hall x (or_introl eq_refl)) as [y ->]. simpl.
    destruct IH as [ys ->]; [intros z Hz; apply Hall; right; exact Hz |].
    exists (y :: ys). reflexivity.
Qed.

Lemma comprehension_results {A B : Type} (f : A -> result B) (xs : list A) :
  forall ys, comprehension f xs = Ok ys -> Forall2 (fun x y => f x = Ok y) xs ys.
Proof.
  induction xs as [| x rest IH]; intros ys; simpl.
  - intros H. injection H as <-. constructor.
  - destruct (f x) as [y | e] eqn:Hx; simpl; [| discriminate].
    destruct (comprehension f rest) as [ys' | e]; simpl; [| discriminate].
    intros H. injection H as <-. constructor; [exact Hx | apply IH; reflexivity].
Qed.

Lemma insert_by_permutation {A : Type} (leb : A -> A -> bool) (x : A)
    (l : list A) :
  Permutation.Permutation (x :: l) (insert_by leb x l).
Proof.
  induction l as [| y rest IH]; simpl.
  - apply Permutation.Permutation_refl.
  - destruct (leb x y).
    + apply Permutation.Permutation_refl.
    + eapply Permutation.perm_trans; [apply Permutation.perm_swap |].
      apply Permutation.perm_skip. exact IH.
Qed.

Lemma sort_by_permutation {A : Type} (leb : A -> A -> bool) (l : list A) :
  Permutation.Permutation l (sort_by leb l).
Proof.
  induction l as [| x rest IH]; simpl.
  - apply Permutation.perm_nil.
  - eapply Permutation.perm_trans;
      [apply Permutation.perm_skip; exact IH | apply insert_by_permutation].
Qed.

Lemma insert_by_sorted {A : Type} (leb : A -> A -> bool) (x : A)
    (l : list A) :
  (forall a b, leb a b = false -> leb b a = true) ->
  Sorted.Sorted (fun a b => leb a b = true) l ->
  Sorted.Sorted (fun a b => leb a b = true) (insert_by leb x l).
Proof.
  intros Htotal Hsorted. induction Hsorted as [| y rest Hrest IH Hhead]; simpl.
  - repeat constructor.
  - destruct (leb x y) eqn:Hxy.
    + constructor; [constructor; assumption | constructor; exact Hxy].
    + constructor; [exact IH |].
      destruct rest as [| z rest']; simpl.
      * constructor. apply Htotal. exact Hxy.
      * destruct (leb x z); constructor.
        -- apply Htotal. exact Hxy.
        -- inversion Hhead; assumption.
Qed.

Lemma sort_by_sorted {A : Type} (leb : A -> A -> bool) (l : list A) :
  (forall a b, leb a b = false -> leb b a = true) ->
  Sorted.Sorted (fun a b => leb a b = true) (sort_by leb l).
Proof.
  intros Htotal. induction l as [| x rest IH]; simpl.
  - constructor.
  - apply insert_by_sorted; assumption.
Qed.

Lemma sorted_map {A B : Type} (R : A -> A -> Prop) (R' : B -> B -> Prop)
    (Q : A -> Prop) (g : A -> B) (l : list A) :
  (forall a b, Q a -> Q b -> R a b -> R' (g a) (g b)) ->
  Forall Q l -> Sorted.Sorted R l -> Sorted.Sorted R' (map g l).
Proof.
  intros Hstep Hall Hsorted.
  induction Hsorted as [| a rest Hrest IH Hhead]; simpl; [constructor |].
  inversion Hall as [| ? ? Ha Hrest_all]; subst.
  constructor; [apply IH; exact Hrest_all |].
  destruct Hhead as [| b rest' Hab]; simpl; constructor.
  inversion Hrest_all; subst. apply Hstep; assumption.
Qed.

(** ** The store of candles *)

Section StoreFacts.

Variable engine : sqlite_engine.
Variable runtime : python_runtime.

Lemma compare_eq_sym (x y : sql_value engine) :
  total_preorder engine ->
  sql_compare engine x y = Eq -> sql_compare engine y x = Eq.
Proof.
  intros Horder Hxy. rewrite (compare_flip engine Horder x y), Hxy.
  reflexivity.
Qed.

Lemma compare_eq_trans (x y z : sql_value engine) :
  total_preorder engine ->
  sql_compare engine x y = Eq -> sql_compare engine y z = Eq ->
  sql_compare engine x z = Eq.
Proof.
  intros Horder Hxy Hyz.
  assert (Hle : sql_compare engine x z <> Gt).
  { apply (compare_trans engine Horder x y z); congruence. }
  assert (Hge : sql_compare engine z x <> Gt).
  { apply (compare_trans engine Horder z y x);
      [rewrite (compare_eq_sym y z Horder Hyz)
      | rewrite (compare_eq_sym x y Horder Hxy)]; discriminate. }
  rewrite (compare_flip engine Horder x z) in Hge.
  destruct (sql_compare engine x z); simpl in *; congruence.
Qed.

Lemma same_candle_key_true (symbol : string) (timestamp : sql_value engine)
    (r : historical_row engine) :
  same_candle_key engine symbol timestamp r = true
  <-> hd_symbol engine r = symbol
      /\ sql_compare engine (hd_timestamp engine r) timestamp = Eq.
Proof.
  unfold same_candle_key. rewrite andb_true_iff, String.eqb_eq.
  destruct (sql_compare engine (hd_timestamp engine r) timestamp);
    intuition congruence.
Qed.

(** Two keys that hold a common row hold the same rows. *)
Lemma same_candle_key_shift (symbol : string) (timestamp : sql_value engine)
    (row r : historical_row engine) :
  total_preorder engine ->
  same_candle_key engine symbol timestamp row = true ->
  same_candle_key engine symbol timestamp r
  = same_candle_key engine (hd_symbol engine row) (hd_timestamp engine row) r.
Proof.
  intros Horder Hrow. apply same_candle_key_true in Hrow.
  destruct Hrow as [Hsymbol Hstamp].
  apply eq_true_iff_eq. rewrite !same_candle_key_true. rewrite Hsymbol.
  split; intros [Hs Ht]; split; try exact Hs.
  - apply (compare_eq_trans _ timestamp _ Horder Ht).
    apply compare_eq_sym; assumption.
  - apply (compare_eq_trans _ (hd_timestamp engine row) _ Horder Ht Hstamp).
Qed.

(** The rows under a key after one [INSERT OR REPLACE]: the new row alone
    when it is stored under that key, the rows of before otherwise. *)
Lemma rows_after_insert (tbl : historical_table engine)
    (row : historical_row engine) (symbol : string)
    (timestamp : sql_value engine) :
  total_preorder engine ->
  candle_rows_at engine (insert_or_replace_row engine tbl row) symbol timestamp
  = if same_candle_key engine symbol timestamp row then [row]
    else candle_rows_at engine tbl symbol timestamp.
Proof.
  intros Horder. unfold candle_rows_at, insert_or_replace_row.
  rewrite filter_app. simpl.
  destruct (same_candle_key engine symbol timestamp row) eqn:Hrow.
  - replace (filter _ (filter _ tbl)) with (@nil (historical_row engine));
      [reflexivity |].
    induction tbl as [| r rest IH]; simpl; [reflexivity |].
    destruct (same_candle_key engine (hd_symbol engine row)
                (hd_timestamp engine row) r) eqn:Hr; simpl; [exact IH |].
    rewrite (same_candle_key_shift symbol timestamp row r Horder Hrow), Hr.
    exact IH.
  - rewrite app_nil_r.
    induction tbl as [| r rest IH]; simpl; [reflexivity |].
    destruct (same_candle_key engine symbol timestamp r) eqn:Hkey.
    + replace (same_candle_key engine (hd_symbol engine row)
                 (hd_timestamp engine row) r) with false.
      * simpl. rewrite Hkey, IH. reflexivity.
      * symmetry. apply not_true_is_false. intros Hr.
        apply same_candle_key_true in Hr. destruct Hr as [Hs Ht].
        apply same_candle_key_true in Hkey. destruct Hkey as [Hs' Ht'].
        assert (Habs : same_candle_key engine symbol timestamp row = true).
        { apply same_candle_key_true. split; [congruence |].
          apply (compare_eq_trans _ (hd_timestamp engine r) _ Horder);
            [apply compare_eq_sym; assumption | exact Ht']. }
        congruence.
    + destruct (same_candle_key engine (hd_symbol engine row)
                  (hd_timestamp engine row) r); simpl;
        [| rewrite Hkey]; exact IH.
Qed.

Lemma row_under_its_key (row : historical_row engine) :
  total_preorder engine ->
  same_candle_key engine (hd_symbol engine row) (hd_timestamp engine row) row
  = true.
Proof.
  intros Horder. apply same_candle_key_true.
  split; [reflexivity | apply (compare_refl engine Horder)].
Qed.

(** [insert_or_update_data] is an upsert: when the timestamp converts, the
    table afterwards holds exactly one row under (symbol, timestamp), the one
    just written, and the rows under every other key are those of before. *)
Theorem insert_or_update_data_upserts (tbl tbl' : historical_table engine)
    (symbol timestamp open_price high_price low_price close_price
       volume : string) :
  total_preorder engine ->
  insert_or_update_data engine runtime tbl symbol timestamp open_price
    high_price low_price close_price volume = Ok tbl' ->
  exists datetime_str,
    convert_timestamp_to_datetime runtime timestamp = Ok datetime_str
    /\ let row := bound_row engine symbol timestamp datetime_str open_price
                    high_price low_price close_price volume in
       candle_rows_at engine tbl' symbol (integer_affinity engine timestamp)
       = [row]
       /\ forall symbol' timestamp',
           same_candle_key engine symbol' timestamp' row = false ->
           candle_rows_at engine tbl' symbol' timestamp'
           = candle_rows_at engine tbl symbol' timestamp'.
Proof.
  intros Horder. unfold insert_or_update_data.
  destruct (convert_timestamp_to_datetime runtime timestamp)
    as [datetime_str | e]; simpl; [| discriminate].
  intros H. injection H as <-.
  exists datetime_str. split; [reflexivity |]. split.
  - rewrite (rows_after_insert _ _ _ _ Horder).
    change symbol with (hd_symbol engine
      (bound_row engine symbol timestamp datetime_str open_price high_price
         low_price close_price volume)) at 1.
    change (integer_affinity engine timestamp) with (hd_timestamp engine
      (bound_row engine symbol timestamp datetime_str open_price high_price
         low_price close_price volume)).
    rewrite (row_under_its_key _ Horder). reflexivity.
  - intros symbol' timestamp' Hother.
    rewrite (rows_after_insert _ _ _ _ Horder), Hother. reflexivity.
Qed.

(** A timestamp that [int] refuses makes [insert_or_update_data] raise
    [ValueError]; nothing is stored. *)
Lemma insert_or_update_data_bad_timestamp (tbl : historical_table engine)
    (symbol timestamp open_price high_price low_price close_price
       volume : string) :
  py_int runtime timestamp = None ->
  insert_or_update_data engine runtime tbl symbol timestamp open_price
    high_price low_price close_price volume = Raise ValueError.
Proof.
  intros Hbad.
  unfold insert_or_update_data, convert_timestamp_to_datetime, int_of_str.
  rewrite Hbad. reflexivity.
Qed.

End StoreFacts.

(** ** The primary key, the bulk load and the ordered read *)

Section LoaderFacts.

Variable engine : sqlite_engine.
Variable runtime : python_runtime.

Lemma insert_keeps_keys_unique (tbl : historical_table engine)
    (row : historical_row engine) :
  total_preorder engine ->
  keys_unique engine tbl ->
  keys_unique engine (insert_or_replace_row engine tbl row).
Proof.
  intros Horder Hunique symbol timestamp.
  rewrite (rows_after_insert engine tbl row symbol timestamp Horder).
  destruct (same_candle_key engine symbol timestamp row);
    [simpl; lia | apply Hunique].
Qed.

Lemma executemany_keeps_keys_unique (rows : list (historical_row engine)) :
  total_preorder engine ->
  forall tbl, keys_unique engine tbl ->
              keys_unique engine (executemany engine tbl rows).
Proof.
  intros Horder. unfold executemany.
  induction rows as [| row rest IH]; intros tbl Hunique; simpl.
  - exact Hunique.
  - apply IH. apply insert_keeps_keys_unique; assumption.
Qed.

Lemma bulk_insert_keeps_keys_unique (tbl : historical_table engine)
    (symbol : string) (historical_candles : candles_response) :
  total_preorder engine ->
  keys_unique engine tbl ->
  keys_unique engine
    (bulk_insert_historical_data engine runtime tbl symbol historical_candles).
Proof.
  intros Horder Hunique. unfold bulk_insert_historical_data.
  destruct (lookup_key (candles_data historical_candles)) as [data | e];
    simpl; [| exact Hunique].
  destruct (sorted_by_timestamp runtime data) as [sorted_candles | e]; simpl;
    [| exact Hunique].
  destruct (comprehension (candle_row engine runtime symbol) sorted_candles)
    as [rows | e]; simpl; [| exact Hunique].
  apply executemany_keeps_keys_unique; assumption.
Qed.

Lemma refresh_latest_keeps_keys_unique (tbl tbl' : historical_table engine)
    (ex : exchange) (symbol timeframe : string) :
  total_preorder engine ->
  keys_unique engine tbl ->
  refresh_latest engine runtime tbl ex symbol timeframe = Ok tbl' ->
  keys_unique engine tbl'.
Proof.
  intros Horder Hunique. unfold refresh_latest.
  destruct (get_candlesticks ex symbol timeframe "1") as [latest | e]; simpl;
    [| discriminate].
  destruct (candles_data latest) as [data |];
    [| intros H; injection H as <-; exact Hunique].
  destruct (subscript data 0) as [latest_data | e]; simpl; [| discriminate].
  unfold insert_latest, insert_or_update_data.
  repeat match goal with
         | |- context [bind (subscript latest_data ?i) _] =>
             destruct (subscript latest_data i); simpl; [| discriminate]
         end.
  destruct (convert_timestamp_to_datetime runtime _); simpl; [| discriminate].
  intros H. injection H as <-.
  apply insert_keeps_keys_unique; assumption.
Qed.

Lemma refresh_loop_keeps_keys_unique (symbol timeframe : string)
    (answers : list exchange) :
  total_preorder engine ->
  forall tbl, keys_unique engine tbl ->
              keys_unique engine
                (refresh_loop engine runtime tbl symbol timeframe answers).
Proof.
  intros Horder.
  induction answers as [| ex later IH]; intros tbl Hunique; simpl.
  - exact Hunique.
  - destruct (refresh_latest engine runtime tbl ex symbol timeframe)
      as [tbl' | e] eqn:Hrefresh; [| exact Hunique].
    apply IH.
    exact (refresh_latest_keeps_keys_unique tbl tbl' ex symbol timeframe
             Horder Hunique Hrefresh).
Qed.

(** The primary key holds throughout [fetch_and_store_data]: from a table
    with at most one row per (symbol, timestamp), and so from the empty
    table, the initial load and any number of refreshes leave at most one
    row per (symbol, timestamp), whatever the exchange answers. *)
Theorem fetch_and_store_data_keeps_keys_unique
    (tbl : historical_table engine) (first : exchange)
    (answers : list exchange) (symbol timeframe : string) (limit : Z) :
  total_preorder engine ->
  keys_unique engine tbl ->
  keys_unique engine
    (fetch_and_store_data engine runtime tbl first answers symbol timeframe
       limit).
Proof.
  intros Horder Hunique. unfold fetch_and_store_data.
  destruct (get_candlesticks first symbol timeframe (str limit))
    as [historical_candles | e]; [| exact Hunique].
  apply refresh_loop_keeps_keys_unique; [exact Horder |].
  destruct (candles_data historical_candles); [| exact Hunique].
  apply bulk_insert_keeps_keys_unique; assumption.
Qed.

Lemma map_snd_combine_same_length {A B : Type} (xs : list A) :
  forall ys : list B, length xs = length ys -> map snd (combine xs ys) = ys.
Proof.
  induction xs as [| x xs' IH]; intros [| y ys']; simpl; intros Hlen;
    try reflexivity; try discriminate.
  rewrite IH; [reflexivity | lia].
Qed.

Lemma forall2_combine {A B : Type} (R : A -> B -> Prop) (xs : list A)
    (ys : list B) :
  Forall2 R xs ys -> Forall (fun p => R (fst p) (snd p)) (combine xs ys).
Proof.
  induction 1; simpl; constructor; assumption.
Qed.

Lemma forall2_length {A B : Type} (R : A -> B -> Prop) (xs : list A)
    (ys : list B) :
  Forall2 R xs ys -> length xs = length ys.
Proof.
  induction 1; simpl; congruence.
Qed.

(** What [sorted] returns: the candles it was given, by ascending
    [int(x[0])]. *)
Lemma sorted_by_timestamp_result (data sorted_candles : list candle) :
  sorted_by_timestamp runtime data = Ok sorted_candles ->
  Permutation.Permutation data sorted_candles
  /\ Sorted.Sorted (timestamp_not_after runtime) sorted_candles.
Proof.
  unfold sorted_by_timestamp.
  destruct (comprehension (timestamp_key runtime) data) as [keys | e]
    eqn:Hkeys; simpl; [| discriminate].
  intros H. injection H as <-.
  apply comprehension_results in Hkeys.
  pose proof (forall2_length _ _ _ Hkeys) as Hlen.
  set (leb := fun a b : Z * candle => (fst a <=? fst b)%Z).
  pose proof (sort_by_permutation leb (combine keys data)) as Hperm.
  split.
  - rewrite <- (map_snd_combine_same_length keys data) at 1
      by (symmetry; exact Hlen).
    apply Permutation.Permutation_map. exact Hperm.
  - apply (sorted_map (fun a b => leb a b = true) (timestamp_not_after runtime)
             (fun p => timestamp_key runtime (snd p) = Ok (fst p))).
    + intros [ka a] [kb b] Ha Hb Hab. simpl in *.
      exists ka, kb. repeat split; try assumption.
      apply Z.leb_le. exact Hab.
    + apply (Permutation.Permutation_Forall Hperm).
      apply (forall2_combine (fun k c => timestamp_key runtime c = Ok k)).
      clear - Hkeys. induction Hkeys; constructor; assumption.
    + apply sort_by_sorted. intros a b Hab. unfold leb in *.
      apply Z.leb_le. apply Z.leb_gt in Hab. lia.
Qed.

(** One malformed candle voids the whole batch: when the answer holds no
    'data', or one of its candles has fewer than six fields or a timestamp
    that [int] or the date conversion refuses, [bulk_insert_historical_data]
    writes nothing, the good candles included, and raises nothing. *)
Theorem bulk_insert_all_or_nothing (tbl : historical_table engine)
    (symbol : string) (historical_candles : candles_response) :
  (candles_data historical_candles = None
   \/ exists data c e,
       candles_data historical_candles = Some data
       /\ In c data /\ candle_row engine runtime symbol c = Raise e) ->
  bulk_insert_historical_data engine runtime tbl symbol historical_candles
  = tbl.
Proof.
  unfold bulk_insert_historical_data.
  intros [-> | [data [c [e [-> [Hin Hbad]]]]]]; simpl; [reflexivity |].
  destruct (sorted_by_timestamp runtime data) as [sorted_candles | e0]
    eqn:Hsorted; simpl; [| reflexivity].
  destruct (sorted_by_timestamp_result data sorted_candles Hsorted)
    as [Hperm _].
  destruct (comprehension_raises (candle_row engine runtime symbol)
              sorted_candles c e
              (Permutation.Permutation_in c Hperm Hin) Hbad) as [e' ->].
  reflexivity.
Qed.

Lemma candle_row_has_key (symbol : string) (c : candle)
    (row : historical_row engine) :
  candle_row engine runtime symbol c = Ok row ->
  exists k, timestamp_key runtime c = Ok k.
Proof.
  unfold candle_row, timestamp_key, convert_timestamp_to_datetime.
  destruct (subscript c 0) as [timestamp | e]; simpl; [| discriminate].
  destruct (int_of_str runtime timestamp) as [n | e]; simpl;
    [| discriminate].
  intros _. exists n. reflexivity.
Qed.

Lemma insert_latest_of_candle_row (tbl : historical_table engine)
    (symbol : string) (c : candle) (row : historical_row engine) :
  candle_row engine runtime symbol c = Ok row ->
  insert_latest engine runtime tbl symbol c
  = Ok (insert_or_replace_row engine tbl row).
Proof.
  unfold candle_row, insert_latest, insert_or_update_data.
  destruct (subscript c 0) as [timestamp | e]; simpl; [| discriminate].
  destruct (convert_timestamp_to_datetime runtime timestamp)
    as [datetime_str | e]; simpl; [| discriminate].
  repeat match goal with
         | |- context [bind (subscript c ?i) _] =>
             destruct (subscript c i); simpl; [| discriminate]
         end.
  intros H. injection H as <-. reflexivity.
Qed.

Lemma insert_each_of_rows (symbol : string) (candles : list candle)
    (rows : list (historical_row engine)) :
  Forall2 (fun c row => candle_row engine runtime symbol c = Ok row)
    candles rows ->
  forall tbl,
    insert_each engine runtime tbl symbol candles
    = Ok (executemany engine tbl rows).
Proof.
  unfold insert_each, executemany.
  induction 1 as [| c row candles' rows' Hrow _ IH]; intros tbl; simpl.
  - reflexivity.
  - rewrite (insert_latest_of_candle_row tbl symbol c row Hrow). apply IH.
Qed.

(** The bulk load is the single upsert applied in timestamp order: when
    every candle of the answer is well formed,
    [bulk_insert_historical_data] leaves the table that calling
    [insert_or_update_data] on each candle leaves, the candles taken by
    ascending [int(timestamp)]; so of two candles with one timestamp the one
    the order puts last is the one kept. *)
Theorem bulk_insert_is_ordered_upserts (tbl : historical_table engine)
    (symbol : string) (historical_candles : candles_response)
    (data : list candle) :
  candles_data historical_candles = Some data ->
  (forall c, In c data ->
             exists row, candle_row engine runtime symbol c = Ok row) ->
  exists sorted_candles,
    Permutation.Permutation data sorted_candles
    /\ Sorted.Sorted (timestamp_not_after runtime) sorted_candles
    /\ insert_each engine runtime tbl symbol sorted_candles
       = Ok (bulk_insert_historical_data engine runtime tbl symbol
               historical_candles).
Proof.
  intros Hdata Hgood.
  destruct (comprehension_all_ok (timestamp_key runtime) data) as [keys Hkeys].
  { intros c Hc. destruct (Hgood c Hc) as [row Hrow].
    exact (candle_row_has_key symbol c row Hrow). }
  assert (Hsorted : exists sorted_candles,
             sorted_by_timestamp runtime data = Ok sorted_candles).
  { unfold sorted_by_timestamp. rewrite Hkeys. simpl. eexists. reflexivity. }
  destruct Hsorted as [sorted_candles Hsorted].
  destruct (sorted_by_timestamp_result data sorted_candles Hsorted)
    as [Hperm Hordered].
  destruct (comprehension_all_ok (candle_row engine runtime symbol)
              sorted_candles) as [rows Hrows].
  { intros c Hc. apply Hgood.
    exact (Permutation.Permutation_in c (Permutation.Permutation_sym Hperm) Hc). }
  exists sorted_candles. split; [exact Hperm | split; [exact Hordered |]].
  unfold bulk_insert_historical_data.
  rewrite Hdata. simpl. rewrite Hsorted. simpl. rewrite Hrows. simpl.
  apply insert_each_of_rows. apply comprehension_results. exact Hrows.
Qed.

End LoaderFacts.

(** ** Reading the candles back, and the refresh loop *)

Section ReadFacts.

Variable engine : sqlite_engine.
Variable runtime : python_runtime.





(** The refresh loop of [fetch_and_store_data] does not survive an
    exception: once a refresh raises (the request fails, the answer holds an
    empty 'data' list or a malformed candle), the table stays as it was
    before that refresh, whatever the exchange answers afterwards. *)
Theorem refresh_loop_ends_at_first_exception (symbol timeframe : string)
    (before : list exchange) (failing : exchange) (after : list exchange)
    (e : exn) :
  forall tbl,
    refresh_latest engine runtime
      (refresh_loop engine runtime tbl symbol timeframe before) failing
      symbol timeframe = Raise e ->
    refresh_loop engine runtime tbl symbol timeframe
      (before ++ failing :: after)
    = refresh_loop engine runtime tbl symbol timeframe before.
Proof.
  induction before as [| ex later IH]; intros tbl Hraise; simpl in *.
  - rewrite Hraise. reflexivity.
  - destruct (refresh_latest engine runtime tbl ex symbol timeframe)
      as [tbl' | e0]; [| reflexivity].
    apply IH. exact Hraise.
Qed.

(** An answer whose 'data' list is empty is such an exception. *)
Lemma refresh_latest_without_candle (tbl : historical_table engine)
    (ex : exchange) (symbol timeframe : string) :
  get_candlesticks ex symbol timeframe "1" = Ok {| candles_data := Some [] |} ->
  refresh_latest engine runtime tbl ex symbol timeframe = Raise IndexError.
Proof.
  intros Hanswer. unfold refresh_latest. rewrite Hanswer. reflexivity.
Qed.

End ReadFacts.

(** ** A malformed candle in the price window *)

Section WindowFacts.

Variable py_float : string -> option float.

(** One malformed candle empties the whole price window: when a candle of
    the answer has fewer than six fields, or a sixth field that [float]
    refuses, [get_historical_prices] returns the empty list, the prices of
    the good candles included. *)
Theorem get_historical_prices_all_or_nothing (ex : exchange)
    (symbol : string) (limit : Z) (answer : candles_response)
    (data : list candle) (c : candle) (e : exn) :
  get_candlesticks ex symbol "5m" (str limit) = Ok answer ->
  candles_data answer = Some data ->
  In c data ->
  (s <- subscript c 5 ;; float_of_str py_float s) = Raise e ->
  get_historical_prices py_float ex symbol limit = [].
Proof.
  intros Hanswer Hdata Hin Hbad.
  unfold get_historical_prices, fetch_historical_prices.
  rewrite Hanswer. simpl. rewrite Hdata. simpl.
  destruct (comprehension_raises
              (fun c : candle => s <- subscript c 5 ;; float_of_str py_float s)
              data c e Hin Hbad) as [e' ->].
  reflexivity.
Qed.

End WindowFacts.

(** ** The theorems above on the example inputs *)

Lemma quoted_price_is_positive (last : string) (price : float) :
  float_of_digits last = Some price ->
  PrimFloat.ltb 0 price = true ->
  positive_fills float_of_digits "XRP-USDT" (quiet_cycle last).
Proof.
  intros Hlast Hpositive fetched.
  unfold get_current_price, quiet_cycle, quoting_exchange, float_of_str.
  simpl. rewrite Hlast. intros H. injection H as <-. exact Hpositive.
Qed.

(** Bought at 105, topped up at 110, sold when the price is back at 100. *)
Lemma run_strategy_keeps_invariant_witness :
  run_strategy float_of_digits default_config "XRP-USDT"
    (firstn 2 example_cycles) initial_position
  = {| position_size := 47; position_avg_price := 110 |}
  /\ run_strategy float_of_digits default_config "XRP-USDT" example_cycles
       initial_position
     = initial_position
  /\ flat_iff_no_cost_basis
       (run_strategy float_of_digits default_config "XRP-USDT"
          (firstn 2 example_cycles) initial_position).
Proof.
  split; [reflexivity | split; [reflexivity |]].
  apply (run_strategy_keeps_invariant float_of_digits default_config
           "XRP-USDT" (firstn 2 example_cycles)); try reflexivity.
  apply Forall_cons;
    [apply (quoted_price_is_positive "105" 105%float); reflexivity |].
  apply Forall_cons;
    [apply (quoted_price_is_positive "110" 110%float); reflexivity |].
  apply Forall_nil.
Defined.

(** The first tranche was bought at 100 and the price is 50, far below the
    immediate-exit price; the candle request fails and the position stays. *)
Lemma cycle_without_history_does_nothing_witness :
  check_exit_conditions default_config first_tranche [] 50
  = Some immediate_exit
  /\ strategy_cycle float_of_digits default_config "XRP-USDT" first_tranche
       blind_cycle
     = first_tranche.
Proof.
  split; [reflexivity |].
  apply cycle_without_history_does_nothing. reflexivity.
Defined.

(** Read 100, filled at 105: 100 is below 102.9 and the tranche is sold in
    the iteration that bought it. *)
Lemma cycle_can_buy_then_sell_witness :
  strategy_cycle float_of_digits default_config "XRP-USDT" initial_position
    slipping_cycle
  = initial_position.
Proof.
  apply (cycle_can_buy_then_sell float_of_digits default_config "XRP-USDT"
           initial_position slipping_cycle 100%float 105%float
           "order 40"%string "order 40"%string);
    try reflexivity.
  simpl. discriminate.
Defined.

Lemma example_engine_is_preorder : total_preorder example_engine.
Proof.
  split; simpl.
  - apply Z.compare_refl.
  - intros x y. apply Z.compare_antisym.
  - intros x y z Hxy Hyz.
    apply Z.compare_le_iff in Hxy. apply Z.compare_le_iff in Hyz.
    apply Z.compare_le_iff. exact (Z.le_trans x y z Hxy Hyz).
Qed.

(** The same candle written twice, the second time with a close of 12. *)
Lemma insert_or_update_data_upserts_witness :
  exists first second row,
    insert_or_update_data example_engine example_runtime [] "XRP-USDT"
      "1000" "8" "10" "7" "9" "400" = Ok first
    /\ insert_or_update_data example_engine example_runtime first "XRP-USDT"
         "1000" "8" "10" "7" "12" "400" = Ok second
    /\ candle_rows_at example_engine second "XRP-USDT" 1000%Z = [row]
    /\ hd_close example_engine row = 12%Z.
Proof.
  eexists. eexists. eexists.
  split; [reflexivity |].
  assert (Hsecond :
    insert_or_update_data example_engine example_runtime
      [bound_row example_engine "XRP-USDT" "1000" "at 1000" "8" "10" "7" "9"
         "400"]
      "XRP-USDT" "1000" "8" "10" "7" "12" "400"
    = Ok [bound_row example_engine "XRP-USDT" "1000" "at 1000" "8" "10" "7"
            "12" "400"]) by reflexivity.
  split; [exact Hsecond |].
  destruct (insert_or_update_data_upserts example_engine example_runtime
              _ _ _ _ _ _ _ _ _ example_engine_is_preorder Hsecond)
    as [datetime_str [Hconvert [Hrows _]]].
  injection Hconvert as <-.
  split; [exact Hrows | reflexivity].
Defined.

(** The loader on the empty table: two candles loaded, then two refreshes. *)
Lemma fetch_and_store_data_keeps_keys_unique_witness :
  keys_unique example_engine
    (fetch_and_store_data example_engine example_runtime []
       answering_exchange [answering_exchange; answering_exchange]
       "XRP-USDT" "5m" 5000).
Proof.
  apply fetch_and_store_data_keeps_keys_unique.
  - exact example_engine_is_preorder.
  - intros symbol timestamp. simpl. lia.
Defined.

(** Two good candles and a short one: nothing is stored. *)
Lemma bulk_insert_all_or_nothing_witness :
  bulk_insert_historical_data example_engine example_runtime [] "XRP-USDT"
    {| candles_data := Some [newer_candle; short_candle; older_candle] |}
  = [].
Proof.
  apply bulk_insert_all_or_nothing. right.
  exists [newer_candle; short_candle; older_candle], short_candle, IndexError.
  split; [reflexivity | split; [right; left; reflexivity | reflexivity]].
Defined.

(** The two candles arrive newest first and are stored oldest first. *)
Lemma bulk_insert_is_ordered_upserts_witness :
  map (hd_timestamp example_engine)
    (bulk_insert_historical_data example_engine example_runtime []
       "XRP-USDT" {| candles_data := Some [newer_candle; older_candle] |})
  = [1000%Z; 2000%Z]
  /\ exists sorted_candles,
      Permutation.Permutation [newer_candle; older_candle] sorted_candles
      /\ Sorted.Sorted (timestamp_not_after example_runtime) sorted_candles
      /\ insert_each example_engine example_runtime [] "XRP-USDT"
           sorted_candles
         = Ok (bulk_insert_historical_data example_engine example_runtime []
                 "XRP-USDT"
                 {| candles_data := Some [newer_candle; older_candle] |}).
Proof.
  split; [reflexivity |].
  apply (bulk_insert_is_ordered_upserts example_engine example_runtime []
           "XRP-USDT" {| candles_data := Some [newer_candle; older_candle] |}
           [newer_candle; older_candle] eq_refl).
  intros c [<- | [<- | []]]; eexists; reflexivity.
Defined.



(** A refresh answered with an empty 'data' list between two good ones: the
    third answer is never stored. *)
Lemma refresh_loop_ends_at_first_exception_witness :
  let empty_answer := quoting_exchange (Some []) "105" in
  let first_answer := quoting_exchange (Some [older_candle]) "105" in
  let third_answer := quoting_exchange (Some [newer_candle]) "105" in
  map (hd_timestamp example_engine)
    (refresh_loop example_engine example_runtime [] "XRP-USDT" "5m"
       ([first_answer] ++ empty_answer :: [third_answer]))
  = [1000%Z].
Proof.
  intros empty_answer first_answer third_answer.
  rewrite (refresh_loop_ends_at_first_exception example_engine
             example_runtime "XRP-USDT" "5m" [first_answer] empty_answer
             [third_answer] IndexError).
  - reflexivity.
  - apply refresh_latest_without_candle. reflexivity.
Defined.

(** The short candle among the fifteen: the window is empty. *)
Lemma get_historical_prices_all_or_nothing_witness :
  get_historical_prices float_of_digits
    (quoting_exchange (Some (falling_candles ++ [short_candle])) "105")
    "XRP-USDT" 100
  = [].
Proof.
  apply (get_historical_prices_all_or_nothing float_of_digits _ "XRP-USDT" 100
           {| candles_data := Some (falling_candles ++ [short_candle]) |}
           (falling_candles ++ [short_candle]) short_candle IndexError);
    try reflexivity.
  apply in_or_app. right. left. reflexivity.
Defined.

(** 40 bought at 100, then 7 bought at 105: the average price is 105. *)
Lemma second_entry_overwrites_cost_basis_witness :
  run float_of_digits
    [Enter (quoting_exchange None "100") "XRP-USDT" "buy" 40;
     Enter (quoting_exchange None "105") "XRP-USDT" "buy" 7]
    initial_position
  = {| position_size := 47; position_avg_price := 105 |}.
Proof.
  apply (second_entry_overwrites_cost_basis float_of_digits
           (quoting_exchange None "100") (quoting_exchange None "105")
           initial_position "XRP-USDT" "buy" 40 7 100%float 105%float
           "order 40"%string "order 7"%string);
    reflexivity.
Defined.
